(** * whisper_transcribe.py: batch transcription pipeline

    A shallow embedding of [src/whisper_transcribe.py] and the properties of
    its orchestration loop, duration helpers, hotword loader, model
    suggestion and report writer.

    Conventions of the embedding:
    - a Python [str] is a [string] holding the UTF-8 bytes of the text, so the
      Cyrillic literals of the script appear verbatim; whitespace is the ASCII
      part of [str.isspace];
    - a Python [int] is a [Z]; a Python [float] is an exact rational [Q]
      (rounding error of the binary representation is not modelled);
    - a call that can raise returns a [result]; code that touches the file
      system, the clock, the accelerator probe or the engine runs in the
      state-and-exception monad [M] over a [World]. *)

From Stdlib Require Import String Ascii List ZArith QArith Qround Qabs Lia Bool.
Import ListNotations.

#[local] Open Scope string_scope.
#[local] Open Scope Z_scope.

(** ** Python strings *)
Module PyStr.

(** [str.isspace] on the ASCII range: TAB..CR, FS..US and the blank. *)
Definition is_space (c : ascii) : bool :=
  let n := Z.of_nat (nat_of_ascii c) in
  ((9 <=? n) && (n <=? 13)) || ((28 <=? n) && (n <=? 32)).

Definition is_digit (c : ascii) : bool :=
  let n := Z.of_nat (nat_of_ascii c) in (48 <=? n) && (n <=? 57).

Definition digit_val (c : ascii) : Z := Z.of_nat (nat_of_ascii c) - 48.

Definition digit_char (d : Z) : ascii := ascii_of_nat (Z.to_nat (48 + d)).

Definition is_empty (s : string) : bool :=
  match s with EmptyString => true | String _ _ => false end.

(** [s.lstrip()], [s.rstrip()] and [s.strip()] without argument. *)
Fixpoint lstrip (s : string) : string :=
  match s with
  | EmptyString => EmptyString
  | String c r => if is_space c then lstrip r else s
  end.

Fixpoint rstrip (s : string) : string :=
  match s with
  | EmptyString => EmptyString
  | String c r =>
      let r' := rstrip r in
      if is_empty r' && is_space c then EmptyString else String c r'
  end.

Definition strip (s : string) : string := rstrip (lstrip s).

(** [sep.join(parts)]. *)
Fixpoint join (sep : string) (parts : list string) : string :=
  match parts with
  | [] => EmptyString
  | [p] => p
  | p :: ps => p ++ sep ++ join sep ps
  end.

(** [s.split(sep)] for a one-character separator: never an empty list. *)
Fixpoint split (sep : ascii) (s : string) : list string :=
  match s with
  | EmptyString => [EmptyString]
  | String c r =>
      if Ascii.eqb c sep then EmptyString :: split sep r
      else match split sep r with
           | [] => [String c EmptyString]
           | h :: t => String c h :: t
           end
  end.

(** Is [p] a prefix of [s]; does [needle] occur in [hay] ([needle in hay]). *)
Fixpoint startswith (p s : string) : bool :=
  match p, s with
  | EmptyString, _ => true
  | String a p', String b s' => Ascii.eqb a b && startswith p' s'
  | String _ _, EmptyString => false
  end.

Fixpoint contains (needle hay : string) : bool :=
  startswith needle hay ||
  match hay with
  | EmptyString => false
  | String _ r => contains needle r
  end.

(** Decimal digits of a non-negative integer, most significant first. *)
Fixpoint decimal_fuel (fuel : nat) (n : Z) : string :=
  match fuel with
  | O => EmptyString
  | S f =>
      if n <? 10 then String (digit_char n) EmptyString
      else decimal_fuel f (n / 10) ++ String (digit_char (n mod 10)) EmptyString
  end.

Definition decimal (n : Z) : string :=
  decimal_fuel (S (Z.to_nat (Z.log2 n))) n.

(** [str(n)] for an int. *)
Definition str_int (n : Z) : string :=
  if n <? 0 then String "-" (decimal (- n)) else decimal n.

(** Left padding with zeros up to [width] characters. *)
Fixpoint zeros (k : nat) : string :=
  match k with O => EmptyString | S k' => String "0" (zeros k') end.

Definition zfill (width : nat) (s : string) : string :=
  zeros (width - String.length s) ++ s.

(** [f"{n:02d}"]: the sign counts in the width, zeros go after it. *)
Definition format_02d (n : Z) : string :=
  if n <? 0 then String "-" (zfill 1 (decimal (- n))) else zfill 2 (decimal n).

(** The digits part of [int(s)]: decimal digits, single underscores allowed
    between digits only. [seen] tells whether the previous character was a
    digit. *)
Fixpoint digits_value (s : string) (acc : Z) (seen : bool) : option Z :=
  match s with
  | EmptyString => if seen then Some acc else None
  | String c r =>
      if is_digit c then digits_value r (acc * 10 + digit_val c) true
      else if Ascii.eqb c "_" then
             if seen then digits_value r acc false else None
           else None
  end.

(** [int(s)] for a string: surrounding whitespace is dropped, one sign is
    accepted; [None] stands for the [ValueError]. *)
Definition int_of_str (s : string) : option Z :=
  match strip s with
  | String "-" r => option_map Z.opp (digits_value r 0 false)
  | String "+" r => digits_value r 0 false
  | t => digits_value t 0 false
  end.

End PyStr.

(** ** Python numbers *)

(** [int(x)] for a float truncates towards zero. *)
Definition int_of_float (q : Q) : Z := Z.quot (Qnum q) (Z.pos (Qden q)).

Inductive pynum : Type :=
| PInt (z : Z)
| PFloat (q : Q).

Definition py_int (x : pynum) : Z :=
  match x with PInt z => z | PFloat q => int_of_float q end.

Definition py_float (x : pynum) : Q :=
  match x with PInt z => inject_Z z | PFloat q => q end.

(** [round(x, 2)] for a float: to the nearest hundredth, ties to even. *)
Definition round_half_even (q : Q) : Z :=
  let f := Qfloor q in
  let r := (q - inject_Z f)%Q in
  match (r ?= 1 # 2)%Q with
  | Lt => f
  | Gt => f + 1
  | Eq => if Z.even f then f else f + 1
  end.

Definition round2 (q : Q) : Q := (Qmake (round_half_even (q * 100)) 100)%Q.

(** ** Resource probe *)

(** [suggest_model(ram_gb, use_cuda)]. *)
Definition suggest_model (ram_gb : Q) (use_cuda : bool) : string :=
  if use_cuda then "large"
  else if Qle_bool 6 ram_gb then "small"
  else if Qle_bool 4 ram_gb then "base"
  else "tiny".

(** ** Duration helpers *)

(** [duration_to_seconds(duration_str)]: the two-name unpacking accepts
    exactly two fields, and every exception is turned into [0]. *)
Definition duration_to_seconds (duration_str : string) : Z :=
  match PyStr.split ":" duration_str with
  | [m; s] =>
      match PyStr.int_of_str m, PyStr.int_of_str s with
      | Some minutes, Some seconds => minutes * 60 + seconds
      | _, _ => 0
      end
  | _ => 0
  end.

(** [format_seconds(seconds)]. *)
Definition format_seconds (seconds : pynum) : string :=
  let total_seconds := py_int seconds in
  let hours := total_seconds / 3600 in
  let remainder := total_seconds mod 3600 in
  let minutes := remainder / 60 in
  let seconds := remainder mod 60 in
  if 0 <? hours then
    PyStr.format_02d hours ++ ":" ++ PyStr.format_02d minutes ++ ":" ++
    PyStr.format_02d seconds
  else
    PyStr.format_02d minutes ++ ":" ++ PyStr.format_02d seconds.


(** ** Paths ([posixpath]) *)
Module PyPath.

(** Split at the last occurrence of [sep]: the text before it and the text
    from it on (separator included). *)
Fixpoint rsplit_at (sep : ascii) (s : string) : option (string * string) :=
  match s with
  | EmptyString => None
  | String c r =>
      match rsplit_at sep r with
      | Some (a, b) => Some (String c a, b)
      | None => if Ascii.eqb c sep then Some (EmptyString, s) else None
      end
  end.

Fixpoint all_dots (s : string) : bool :=
  match s with
  | EmptyString => true
  | String c r => Ascii.eqb c "." && all_dots r
  end.

(** [os.path.basename(p)]. *)
Definition basename (p : string) : string :=
  match rsplit_at "/" p with
  | Some (_, String _ b) => b
  | _ => p
  end.

(** [os.path.splitext(p)]: the extension starts at the last dot of the last
    component; leading dots of that component do not start an extension. *)
Definition splitext (p : string) : string * string :=
  let '(head, base) :=
    match rsplit_at "/" p with
    | Some (a, String c b) => (a ++ String c EmptyString, b)
    | _ => (EmptyString, p)
    end in
  match rsplit_at "." base with
  | Some (root, ext) => if all_dots root then (p, EmptyString) else (head ++ root, ext)
  | None => (p, EmptyString)
  end.

Fixpoint endswith_slash (s : string) : bool :=
  match s with
  | EmptyString => false
  | String c EmptyString => Ascii.eqb c "/"
  | String _ r => endswith_slash r
  end.

(** [os.path.join(a, b)]. *)
Definition join (a b : string) : string :=
  if PyStr.startswith "/" b then b
  else if PyStr.is_empty a || endswith_slash a then a ++ b
  else a ++ "/" ++ b.

End PyPath.

(** [s.lower()] on the ASCII letters. *)
Definition lower_char (c : ascii) : ascii :=
  let n := nat_of_ascii c in
  if (Nat.leb 65 n && Nat.leb n 90)%bool then ascii_of_nat (n + 32) else c.

Fixpoint lower (s : string) : string :=
  match s with
  | EmptyString => EmptyString
  | String c r => String (lower_char c) (lower r)
  end.

(** [x in (a, b, ...)] for strings. *)
Definition str_in (x : string) (l : list string) : bool :=
  existsb (String.eqb x) l.

Definition video_extensions : list string := [".mp4"; ".avi"; ".mov"; ".mkv"].
Definition audio_extensions : list string := [".wav"; ".mp3"; ".ogg"; ".flac"].
Definition supported_extensions : list string :=
  [".mp4"; ".avi"; ".mov"; ".mkv"; ".wav"; ".mp3"; ".ogg"; ".flac"].

(** ** Exceptions and results *)

Inductive exn_kind : Type :=
| ImportError
| FileNotFoundError
| ZeroDivisionError
| ValueError
| OtherError.

(** An exception (always a subclass of [Exception]) with its [str(e)]. *)
Record exn : Type := mk_exn { kind : exn_kind; message : string }.

Inductive result (A : Type) : Type :=
| Ok (a : A)
| Raise (e : exn).
Arguments Ok {A} a.
Arguments Raise {A} e.

Definition is_import_error (e : exn) : bool :=
  match kind e with ImportError => true | _ => false end.
Definition is_file_not_found (e : exn) : bool :=
  match kind e with FileNotFoundError => true | _ => false end.
Definition is_zero_division (e : exn) : bool :=
  match kind e with ZeroDivisionError => true | _ => false end.

(** ** The world outside the script *)

(** What a file written during the run holds. *)
Inductive file_content : Type :=
| Text (s : string)
| Media (source : string).

(** One call of [model.transcribe] together with the model it ran on. *)
Record engine_call : Type := mk_engine_call {
  ec_audio_path : string;
  ec_model_size : string;
  ec_device : string;
  ec_language : string;
  ec_hotwords : option string
}.

(** The answers of the collaborators. Probes that are asked repeatedly
    (clock, accelerator, memory) answer by call number. *)
Record Env : Type := mk_env {
  time_time : nat -> Q;
  torch_cuda_is_available : nat -> result bool;
  virtual_memory_available : nat -> Z;
  listdir : string -> list string;
  isfile : string -> bool;
  getsize : string -> result Z;
  makedirs : string -> result unit;
  now_strftime : string;
  getcwd : string;
  clip_duration : string -> result Q;
  shutil_copy : string -> string -> result unit;
  write_audiofile : string -> string -> result unit;
  whisper_model : string -> string -> result unit;
  model_transcribe : engine_call -> result (list string * string);
  open_read : string -> result string;
  open_write : string -> result unit;
  file_write : string -> string -> result unit;
  platform_platform : string;
  sys_version : string;
  metadata_version : string -> result string
}.

Record World : Type := mk_world {
  clock_reads : nat;
  cuda_probes : nat;
  ram_probes : nat;
  fs : list (string * file_content);
  open_files : list string;
  engine_log : list engine_call;
  console : list string
}.

Definition initial_world : World := mk_world 0 0 0 [] [] [] [].

Definition tick_clock (w : World) : World :=
  mk_world (S (clock_reads w)) (cuda_probes w) (ram_probes w) (fs w)
           (open_files w) (engine_log w) (console w).
Definition tick_cuda (w : World) : World :=
  mk_world (clock_reads w) (S (cuda_probes w)) (ram_probes w) (fs w)
           (open_files w) (engine_log w) (console w).
Definition tick_ram (w : World) : World :=
  mk_world (clock_reads w) (cuda_probes w) (S (ram_probes w)) (fs w)
           (open_files w) (engine_log w) (console w).
Definition set_fs (w : World) (f : list (string * file_content)) : World :=
  mk_world (clock_reads w) (cuda_probes w) (ram_probes w) f
           (open_files w) (engine_log w) (console w).
Definition set_open_files (w : World) (o : list string) : World :=
  mk_world (clock_reads w) (cuda_probes w) (ram_probes w) (fs w)
           o (engine_log w) (console w).
Definition log_engine (w : World) (c : engine_call) : World :=
  mk_world (clock_reads w) (cuda_probes w) (ram_probes w) (fs w)
           (open_files w) (engine_log w ++ [c]) (console w).
Definition log_console (w : World) (line : string) : World :=
  mk_world (clock_reads w) (cuda_probes w) (ram_probes w) (fs w)
           (open_files w) (engine_log w) (console w ++ [line]).

(** Creating or truncating a file. *)
Fixpoint fs_put (f : list (string * file_content)) (p : string) (c : file_content)
  : list (string * file_content) :=
  match f with
  | [] => [(p, c)]
  | (q, d) :: r => if String.eqb q p then (p, c) :: r else (q, d) :: fs_put r p c
  end.

Fixpoint fs_get (f : list (string * file_content)) (p : string) : option file_content :=
  match f with
  | [] => None
  | (q, d) :: r => if String.eqb q p then Some d else fs_get r p
  end.

Definition fs_append (f : list (string * file_content)) (p chunk : string)
  : list (string * file_content) :=
  match fs_get f p with
  | Some (Text s) => fs_put f p (Text (s ++ chunk))
  | _ => fs_put f p (Text chunk)
  end.

Fixpoint remove_first (p : string) (l : list string) : list string :=
  match l with
  | [] => []
  | q :: r => if String.eqb q p then r else q :: remove_first p r
  end.

(** ** The state-and-exception monad *)

Definition M (A : Type) : Type := World -> result A * World.

Definition ret {A} (a : A) : M A := fun w => (Ok a, w).
Definition raise {A} (e : exn) : M A := fun w => (Raise e, w).
Definition bind {A B} (c : M A) (k : A -> M B) : M B :=
  fun w => match c w with
           | (Ok a, w') => k a w'
           | (Raise e, w') => (Raise e, w')
           end.

Notation "x <- c ;; k" := (bind c (fun x => k))
  (at level 61, c at next level, right associativity).
Notation "c ;;; k" := (bind c (fun _ => k))
  (at level 61, right associativity).

(** [try: c  except <those e with handles e>: h e]. *)
Definition try_except {A} (c : M A) (handles : exn -> bool) (h : exn -> M A) : M A :=
  fun w => match c w with
           | (Ok a, w') => (Ok a, w')
           | (Raise e, w') => if handles e then h e w' else (Raise e, w')
           end.

(** [except Exception] takes every exception of the model. *)
Definition any_exception (e : exn) : bool := true.

Definition lift {A} (r : result A) : M A := fun w => (r, w).
Definition modify (f : World -> World) : M unit := fun w => (Ok tt, f w).
Definition print (line : string) : M unit := modify (fun w => log_console w line).

(** ** Text helpers shared by the script's functions *)

Definition LF : ascii := "010"%char.
Definition CR : ascii := "013"%char.
Definition nl : string := String LF EmptyString.

(** Text-mode reading translates every line end to a line feed. *)
Fixpoint universal_newlines (s : string) : string :=
  match s with
  | EmptyString => EmptyString
  | String c r =>
      if Ascii.eqb c CR then
        String LF
          match r with
          | EmptyString => EmptyString
          | String d r' =>
              if Ascii.eqb d LF then universal_newlines r' else universal_newlines r
          end
      else String c (universal_newlines r)
  end.

(** The lines a text file yields when iterated, each with its line end. *)
Fixpoint file_lines (s : string) : list string :=
  match s with
  | EmptyString => []
  | String c r =>
      if Ascii.eqb c LF then nl :: file_lines r
      else match file_lines r with
           | [] => [String c EmptyString]
           | h :: t => String c h :: t
           end
  end.

(** [f"{x:.2f}"] and [str(x)] for floats; [str(x)] as it prints a multiple
    of a hundredth below 1e16, which is what [round(_, 2)] hands to it. *)
Definition fmt_2f (q : Q) : string :=
  let c := round_half_even (Qabs q * 100) in
  (if Qle_bool 0 q then EmptyString else "-") ++
  PyStr.decimal (c / 100) ++ "." ++ PyStr.format_02d (c mod 100).

Definition str_float (q : Q) : string :=
  let c := round_half_even (Qabs q * 100) in
  let frac := c mod 100 in
  (if Qle_bool 0 q then EmptyString else "-") ++
  PyStr.decimal (c / 100) ++ "." ++
  (if frac mod 10 =? 0 then PyStr.decimal (frac / 10) else PyStr.format_02d frac).

Definition str_bool (b : bool) : string := if b then "True" else "False".

(** [str(x)] of an optional string: [None] prints as its name. *)
Definition str_option (o : option string) : string :=
  match o with Some s => s | None => "None" end.

(** [a / b] with a float divisor. *)
Definition true_div (a b : Q) : result Q :=
  if Qeq_bool b 0 then Raise (mk_exn ZeroDivisionError "float division by zero")
  else Ok (a / b)%Q.

(** ** Records handed to the report *)

Record processed_info : Type := mk_processed {
  p_name : string;
  p_path : string;
  p_duration : string;
  p_media_duration_sec : Z;
  p_size_mb : Q;
  p_elapsed_time_sec : Q;
  p_elapsed_time_str : string;
  p_speed_x : Q
}.

Record failed_entry : Type := mk_failed {
  f_name : string;
  f_path : string;
  f_reason : string
}.

Record system_info : Type := mk_system_info {
  si_os : string;
  si_python_version : string;
  si_cuda_available : bool;
  si_ram_available_gb : Q
}.

Definition SCRIPT_VERSION : string := "v24".

Definition duration_error : string := "ошибка".
Definition duration_unknown : string := "не определено".
Definition duration_failure_reason : string := "Ошибка получения длительности".

Definition libraries : list string :=
  ["faster-whisper"; "whisper"; "torch"; "moviepy"; "winotify"; "argparse"; "psutil"].

(** [[line.strip() for line in f if line.strip()]] over the text of the
    hotwords file. *)
Definition hotword_lines (content : string) : list string :=
  map PyStr.strip
      (filter (fun line => negb (PyStr.is_empty (PyStr.strip line)))
              (file_lines (universal_newlines content))).

(** [" ".join(segment.text.strip() for segment in segments).strip()]. *)
Definition join_segments (segments : list string) : string :=
  PyStr.strip (PyStr.join " " (map PyStr.strip segments)).

(** ** The functions of the script *)
Section Script.

Variable env : Env.

Definition now : M Q :=
  fun w => (Ok (time_time env (clock_reads w)), tick_clock w).

(** [get_available_ram()]. *)
Definition get_available_ram : M Q :=
  fun w => (Ok (Qmake (virtual_memory_available env (ram_probes w)) (2 ^ 30)),
            tick_ram w).

(** [has_cuda()]: a missing [torch] counts as no accelerator. *)
Definition has_cuda : M bool :=
  try_except
    (fun w => (torch_cuda_is_available env (cuda_probes w), tick_cuda w))
    is_import_error (fun _ => ret false).

(** [extract_audio_from_video(video_path, audio_path)]. A failed extraction
    is taken to leave no file behind. *)
Definition extract_audio_from_video (video_path audio_path : string) : M string :=
  lift (write_audiofile env video_path audio_path) ;;;
  modify (fun w => set_fs w (fs_put (fs w) audio_path (Media video_path))) ;;;
  ret audio_path.

(** [is_supported_file(filename)]. *)
Definition is_supported_file (filename : string) : bool :=
  isfile env filename &&
  str_in (lower (snd (PyPath.splitext filename))) supported_extensions.

(** [get_media_duration(file_path)]. [clip_duration] stands for building the
    clip and reading (and truncating) its duration. *)
Definition get_media_duration (file_path : string) : M string :=
  try_except
    (let ext := lower (snd (PyPath.splitext file_path)) in
     if str_in ext video_extensions || str_in ext audio_extensions then
       d <- lift (clip_duration env file_path) ;;
       let total_seconds := int_of_float d in
       let minutes := total_seconds / 60 in
       let seconds := total_seconds mod 60 in
       ret (PyStr.format_02d minutes ++ ":" ++ PyStr.format_02d seconds)
     else ret duration_unknown)
    any_exception
    (fun e =>
       print ("❌ [WARNING] Не удалось получить длительность файла '" ++
              file_path ++ "': " ++ message e) ;;;
       ret duration_error).

(** [read_hotwords(file_path)]. *)
Definition read_hotwords (file_path : string) : M (option string) :=
  try_except
    (content <- lift (open_read env file_path) ;;
     let lines := hotword_lines content in
     ret (match lines with
          | [] => None
          | _ => Some (PyStr.join ", " lines)
          end))
    is_file_not_found
    (fun _ =>
       print "[WARNING] Файл hotwords.txt не найден. Используются значения по умолчанию" ;;;
       ret (Some EmptyString)).

(** [transcribe_file(hotwords, media_path, output_folder, model_size)]. *)
Definition transcribe_file (hotwords : option string)
           (media_path output_folder model_size : string) : M (string * Q) :=
  start_time <- now ;;
  let ext := lower (snd (PyPath.splitext media_path)) in
  audio_path <-
    (if str_in ext video_extensions then
       let file_root := fst (PyPath.splitext (PyPath.basename media_path)) in
       let audio_path := PyPath.join output_folder (file_root ++ "_temp_audio.wav") in
       extract_audio_from_video media_path audio_path
     else if str_in ext audio_extensions then ret media_path
     else raise (mk_exn ValueError ("Неподдерживаемый формат файла: " ++ media_path))) ;;
  cuda <- has_cuda ;;
  let device := if cuda then "cuda" else "cpu" in
  lift (whisper_model env model_size device) ;;;
  let call := mk_engine_call audio_path model_size device "ru" hotwords in
  modify (fun w => log_engine w call) ;;;
  r <- lift (model_transcribe env call) ;;
  let '(segments, language) := r in
  let transcription := join_segments segments in
  end_time <- now ;;
  let elapsed_time := round2 (end_time - start_time) in
  ret (transcription, elapsed_time).

(** [with open(path, "w") as f: body]: the file is created empty, and closed
    on the way out whether or not the body raised. *)
Definition with_open_write {A} (path : string) (body : M A) : M A :=
  lift (open_write env path) ;;;
  modify (fun w => set_open_files (set_fs w (fs_put (fs w) path (Text EmptyString)))
                                  (path :: open_files w)) ;;;
  fun w => let '(r, w') := body w in
           (r, set_open_files w' (remove_first path (open_files w'))).

(** [f.write(chunk)]. *)
Definition f_write (path chunk : string) : M unit :=
  lift (file_write env path chunk) ;;;
  modify (fun w => set_fs w (fs_append (fs w) path chunk)).

Fixpoint f_write_all (path : string) (chunks : list string) : M unit :=
  match chunks with
  | [] => ret tt
  | c :: r => f_write path c ;;; f_write_all path r
  end.

(** [get_system_info()]. *)
Definition get_system_info : M system_info :=
  let os := platform_platform env in
  let python_version := PyStr.strip (hd EmptyString (PyStr.split "|" (sys_version env))) in
  cuda <- has_cuda ;;
  ram <- get_available_ram ;;
  ret (mk_system_info os python_version cuda (round2 ram)).

(** [get_library_versions()]. *)
Definition get_library_versions : list (string * string) :=
  map (fun lib =>
         (lib, match metadata_version env lib with
               | Ok v => v
               | Raise e => if is_import_error e then "not installed" else "unknown"
               end))
      libraries.

End Script.

(** ** The report [_transcription.info] *)

Definition version_header : string := "=== 🧾 Версия скрипта ==========" ++ nl.
Definition processed_header : string :=
  "=== 📁 Успешно обработанные файлы ==========" ++ nl.
Definition failures_header : string := "=== ❌ Файлы с ошибками ==========" ++ nl.
Definition params_header : string :=
  nl ++ nl ++ "=== ⚙️ Параметры транскрибации ==========" ++ nl.
Definition system_header : string :=
  nl ++ nl ++ "=== 💻 Системная информация ==========" ++ nl.
Definition libraries_header : string :=
  nl ++ nl ++ "=== 🧠 Библиотеки и их версии ==========" ++ nl.
Definition statistics_header : string :=
  nl ++ nl ++ "=== 📊 Общая статистика ==========" ++ nl.
Definition note_header : string :=
  "=== ℹ️ Пояснение к скорости расшифровки ==========" ++ nl.
Definition no_processed_line : string := "Файлов успешно обработано: 0" ++ nl.

Fixpoint repeat_char (c : ascii) (k : nat) : string :=
  match k with O => EmptyString | S k' => String c (repeat_char c k') end.

Definition rule_line : string := repeat_char "-" 50 ++ nl.

(** The writes of one iteration of [for info in processed_info]. *)
Definition processed_writes (info : processed_info) : list string :=
  [ "📌 Файл: " ++ p_name info ++ nl;
    "Путь: " ++ p_path info ++ nl;
    "Размер файла: " ++ str_float (p_size_mb info) ++ " MB" ++ nl;
    "Длительность: " ++ p_duration info ++ nl;
    "Время обработки: " ++ fmt_2f (p_elapsed_time_sec info) ++ " сек (" ++
      p_elapsed_time_str info ++ ")" ++ nl;
    "Скорость расшифровки: " ++ fmt_2f (p_speed_x info) ++ "x" ++ nl;
    rule_line ].

(** The writes of one iteration of [for info in failed_info]. *)
Definition failed_writes (info : failed_entry) : list string :=
  [ "📌 Файл: " ++ f_name info ++ nl;
    "Путь: " ++ f_path info ++ nl;
    "Ошибка: " ++ f_reason info ++ nl;
    rule_line ].

(** The failures section, under [if failed_info:]. *)
Definition failures_section (failed_info : list failed_entry) : list string :=
  match failed_info with
  | [] => []
  | _ :: _ => failures_header :: flat_map failed_writes failed_info
  end.

Definition sum_Z (l : list Z) : Z := fold_left Z.add l 0.
Definition sum_Q (l : list Q) : Q := fold_left Qplus l (inject_Z 0).

(** The statistics section, under [if processed_info: ... else: ...]. *)
Definition statistics_section (processed : list processed_info) : list string :=
  match processed with
  | [] => [no_processed_line]
  | _ :: _ =>
      let total_media_duration := sum_Z (map p_media_duration_sec processed) in
      let total_elapsed_time := sum_Q (map p_elapsed_time_sec processed) in
      let average_speed :=
        if Qle_bool total_elapsed_time 0 then inject_Z 0
        else (inject_Z total_media_duration / total_elapsed_time)%Q in
      [ "Общая длительность медиа: " ++
          format_seconds (PInt total_media_duration) ++ nl;
        "Общее время обработки: " ++ fmt_2f total_elapsed_time ++ " сек (" ++
          format_seconds (PFloat total_elapsed_time) ++ ")" ++ nl;
        "Средняя скорость расшифровки: " ++ fmt_2f average_speed ++ "x" ++ nl ++ nl ]
  end.

Definition key_value (kv : string * string) : string :=
  fst kv ++ ": " ++ snd kv ++ nl.

Definition lookup_version (libs : list (string * string)) (lib : string) : string :=
  match find (fun kv => String.eqb (fst kv) lib) libs with
  | Some kv => snd kv
  | None => "unknown"
  end.

(** Every [f.write] of [write_info_file], in order. *)
Definition info_writes (hotwords : option string)
           (processed : list processed_info) (failed_info : list failed_entry)
           (model_size : string) (total_time_sec : Q)
           (si : system_info) (library_versions : list (string * string))
  : list string :=
  [ version_header; SCRIPT_VERSION ++ nl ++ nl; processed_header ] ++
  flat_map processed_writes processed ++
  failures_section failed_info ++
  [ params_header;
    "Библиотека: faster-whisper (v" ++
      lookup_version library_versions "faster-whisper" ++ ")" ++ nl;
    "Модель: " ++ model_size ++ nl ] ++
  map key_value
      [ ("language", "ru"); ("log_progress", str_bool true);
        ("hotwords", str_option hotwords) ] ++
  [ system_header ] ++
  map key_value
      [ ("os", si_os si); ("python_version", si_python_version si);
        ("cuda_available", str_bool (si_cuda_available si));
        ("ram_available_gb", str_float (si_ram_available_gb si)) ] ++
  [ libraries_header ] ++
  map key_value library_versions ++
  [ statistics_header ] ++
  statistics_section processed ++
  [ note_header;
    "Скорость расшифровки показывает, во сколько раз модель обработала файл быстрее реального времени." ++ nl;
    "Пример: 6.5x — файл длиной 60 секунд обработан за ~9 секунд." ++ nl;
    "Чем выше значение, тем эффективнее работает модель." ++ nl;
    nl ++ "Общее время работы скрипта: " ++ fmt_2f total_time_sec ++ " сек (" ++
      format_seconds (PFloat total_time_sec) ++ ")" ++ nl ].

(** The document the writes add up to. *)
Definition info_document (hotwords : option string)
           (processed : list processed_info) (failed_info : list failed_entry)
           (model_size : string) (total_time_sec : Q)
           (si : system_info) (library_versions : list (string * string)) : string :=
  String.concat EmptyString
    (info_writes hotwords processed failed_info model_size total_time_sec si
                 library_versions).

(** ** The run *)
Section Run.

Variable env : Env.

(** [write_info_file(...)]. *)
Definition write_info_file (hotwords : option string) (output_folder : string)
           (processed : list processed_info) (failed_info : list failed_entry)
           (model_size : string) (total_time_sec : Q) : M unit :=
  let info_path := PyPath.join output_folder "_transcription.info" in
  si <- get_system_info env ;;
  let library_versions := get_library_versions env in
  with_open_write env info_path
    (f_write_all env info_path
       (info_writes hotwords processed failed_info model_size total_time_sec si
                    library_versions)).

(** The speed of one file: [try: media / elapsed  except ZeroDivisionError: 0]. *)
Definition speed_of (media_duration_sec : Z) (elapsed_time : Q) : M Q :=
  try_except (lift (true_div (inject_Z media_duration_sec) elapsed_time))
             is_zero_division (fun _ => ret (inject_Z 0)).

(** The body of the [for] loop for one file; the two lists are the
    accumulators [processed_files_info] and [failed_info]. *)
Definition process_file (hotwords : option string) (output_folder chosen_model : string)
           (acc : list processed_info * list failed_entry) (media_file : string)
  : M (list processed_info * list failed_entry) :=
  let '(processed_files_info, failed_info) := acc in
  let file_name := PyPath.basename media_file in
  let file_root := fst (PyPath.splitext file_name) in
  duration <- get_media_duration env media_file ;;
  try_except
    (let target := PyPath.join output_folder file_name in
     lift (shutil_copy env media_file target) ;;;
     modify (fun w => set_fs w (fs_put (fs w) target (Media media_file))))
    any_exception
    (fun e => print ("[ERROR] Не удалось скопировать файл '" ++ file_name ++
                     "' в выходную папку: " ++ message e)) ;;;
  if String.eqb duration duration_error then
    print ("❌ [ERROR] Не удалось определить длительность файла '" ++ file_name ++
           "'. Возможно, файл повреждён") ;;;
    ret (processed_files_info,
         (failed_info ++ [mk_failed file_name media_file duration_failure_reason])%list)
  else
    try_except
      (r <- transcribe_file env hotwords media_file output_folder chosen_model ;;
       let '(transcription, elapsed_time) := r in
       let output_file := PyPath.join output_folder (file_root ++ ".txt") in
       with_open_write env output_file (f_write env output_file transcription) ;;;
       let media_duration_sec := duration_to_seconds duration in
       speed <- speed_of media_duration_sec elapsed_time ;;
       size <- lift (getsize env media_file) ;;
       ret ((processed_files_info ++
               [mk_processed file_name media_file duration media_duration_sec
                             (round2 (Qmake size (2 ^ 20))) elapsed_time
                             (format_seconds (PFloat elapsed_time)) (round2 speed)])%list,
            failed_info))
      any_exception
      (fun e =>
         print ("[ERROR] Не удалось обработать файл '" ++ file_name ++ "': " ++
                message e) ;;;
         ret (processed_files_info,
              (failed_info ++ [mk_failed file_name media_file (message e)])%list)).

(** [for idx, media_file in enumerate(files_to_process, start=1): ...]. *)
Fixpoint process_files (hotwords : option string) (output_folder chosen_model : string)
         (files : list string) (acc : list processed_info * list failed_entry)
  : M (list processed_info * list failed_entry) :=
  match files with
  | [] => ret acc
  | media_file :: rest =>
      acc' <- process_file hotwords output_folder chosen_model acc media_file ;;
      process_files hotwords output_folder chosen_model rest acc'
  end.

(** What a run leaves for its caller to look at. *)
Record run_summary : Type := mk_run {
  run_files : list string;
  run_model : string;
  run_hotwords : option string;
  run_output_folder : string;
  run_processed : list processed_info;
  run_failed : list failed_entry
}.

(** The main program from the directory listing on; [None] is the early
    [exit()] on an empty inventory. *)
Definition main (input_folder : string) (args_model : option string)
  : M (option run_summary) :=
  start_total_time <- now env ;;
  let files_to_process :=
    map (PyPath.join input_folder)
        (filter (fun f => is_supported_file env (PyPath.join input_folder f))
                (listdir env input_folder)) in
  match files_to_process with
  | [] =>
      print "❌ [WARNING] В указанной папке нет подходящих файлов для расшифровки" ;;;
      ret None
  | _ :: _ =>
      ram_available <- get_available_ram env ;;
      cuda_available <- has_cuda env ;;
      let chosen_model :=
        match args_model with
        | Some m => if PyStr.is_empty m then suggest_model ram_available cuda_available
                    else m
        | None => suggest_model ram_available cuda_available
        end in
      let folder_name := now_strftime env ++ "_" ++ chosen_model in
      let output_folder := PyPath.join (getcwd env) folder_name in
      lift (makedirs env output_folder) ;;;
      hotwords <- read_hotwords env "hotwords.txt" ;;
      r <- process_files hotwords output_folder chosen_model files_to_process ([], []) ;;
      let '(processed_files_info, failed_info) := r in
      end_total_time <- now env ;;
      let total_elapsed_time_sec := (end_total_time - start_total_time)%Q in
      write_info_file hotwords output_folder processed_files_info failed_info
                      chosen_model total_elapsed_time_sec ;;;
      ret (Some (mk_run files_to_process chosen_model hotwords output_folder
                        processed_files_info failed_info))
  end.

End Run.

(** ** Vocabulary of the proofs *)

Fixpoint all_digits (s : string) : bool :=
  match s with
  | EmptyString => true
  | String c r => PyStr.is_digit c && all_digits r
  end.

(** The value of a digit string read from the left, starting from [acc]. *)
Fixpoint horner (acc : Z) (s : string) : Z :=
  match s with
  | EmptyString => acc
  | String c r => horner (acc * 10 + PyStr.digit_val c) r
  end.

Fixpoint no_char (c : ascii) (s : string) : bool :=
  match s with
  | EmptyString => true
  | String d r => negb (Ascii.eqb d c) && no_char c r
  end.



(** The answer [has_cuda()] gives at probe [k], when it gives one. *)
Definition has_cuda_answer (env : Env) (k : nat) : option bool :=
  match torch_cuda_is_available env k with
  | Ok b => Some b
  | Raise e => if is_import_error e then Some false else None
  end.

Definition device_name (cuda : bool) : string := if cuda then "cuda" else "cpu".

(** An engine call made under the run's model and hotwords, on the device
    named by an accelerator probe numbered in [[lo, hi)]. *)
Definition engine_call_ok (env : Env) (hotwords : option string) (model_size : string)
           (lo hi : nat) (c : engine_call) : Prop :=
  ec_model_size c = model_size /\ ec_hotwords c = hotwords /\ ec_language c = "ru" /\
  exists k b, (lo <= k < hi)%nat /\ has_cuda_answer env k = Some b /\
              ec_device c = device_name b.

(** The accumulators gained exactly one record, at the end of one list. *)
Definition one_more (acc acc' : list processed_info * list failed_entry) : Prop :=
  (exists p, fst acc' = (fst acc ++ [p])%list /\ snd acc' = snd acc) \/
  (exists x, fst acc' = fst acc /\ snd acc' = (snd acc ++ [x])%list).

(** ** Example environments *)

(** A well-behaved machine: every collaborator succeeds, the engine hears
    two segments, each media file weighs one mebibyte. The inventory, the
    accelerator probe, the duration probe, the hotwords file and the clock
    vary from scenario to scenario. *)
Definition example_env (files : list string) (cuda : nat -> result bool)
           (durations : string -> result Q) (hotwords_file : result string)
           (clock : nat -> Q) : Env :=
  {| time_time := clock;
     torch_cuda_is_available := cuda;
     virtual_memory_available := fun _ => 8 * 2 ^ 30;
     listdir := fun _ => files;
     isfile := fun _ => true;
     getsize := fun _ => Ok (2 ^ 20);
     makedirs := fun _ => Ok tt;
     now_strftime := "2025-01-01_00-00-00";
     getcwd := "/work";
     clip_duration := durations;
     shutil_copy := fun _ _ => Ok tt;
     write_audiofile := fun _ _ => Ok tt;
     whisper_model := fun _ _ => Ok tt;
     model_transcribe := fun _ => Ok (["hello "; " world"], "ru");
     open_read := fun _ => hotwords_file;
     open_write := fun _ => Ok tt;
     file_write := fun _ _ => Ok tt;
     platform_platform := "Linux";
     sys_version := "3.11.4 (main)";
     metadata_version := fun _ => Ok "1.0" |}.

Definition no_such_file : exn := mk_exn FileNotFoundError "No such file or directory".
Definition ten_second_clock (k : nat) : Q := inject_Z (10 * Z.of_nat k).

(** One audio file of a minute, transcribed in ten seconds. *)
Definition one_talk_env : Env :=
  example_env ["talk.wav"] (fun _ => Ok false) (fun _ => Ok (inject_Z 60))
              (Raise no_such_file) ten_second_clock.

(** Two audio files on a machine whose accelerator probe answers yes on
    even calls and no on odd ones. *)
Definition flaky_cuda_env : Env :=
  example_env ["a.wav"; "b.wav"] (fun k => Ok (Nat.even k))
              (fun _ => Ok (inject_Z 60)) (Raise no_such_file) ten_second_clock.

(** Two video files. *)
Definition two_videos_env : Env :=
  example_env ["a.mp4"; "b.mp4"] (fun _ => Ok false) (fun _ => Ok (inject_Z 60))
              (Raise no_such_file) ten_second_clock.






Definition example_system_info : system_info :=
  mk_system_info "Linux" "3.11.4" false (8 # 1).

Definition example_processed : processed_info :=
  mk_processed "talk.wav" "in/talk.wav" "01:00" 60 (1 # 1) (10 # 1) "00:10" (6 # 1).

Definition failures_title : string := "=== ❌ Файлы с ошибками ==========".

(** ** Vocabulary of the further properties *)

Fixpoint count_char (c : ascii) (s : string) : nat :=
  match s with
  | EmptyString => O
  | String d r => if Ascii.eqb d c then S (count_char c r) else count_char c r
  end.

(** Fields read as one number in base 60, most significant first. *)
Definition base60 (fields : list Z) : Z :=
  fold_left (fun acc x => acc * 60 + x) fields 0.


(** The files the main program finds in [input_folder]. *)
Definition inventory (env : Env) (input_folder : string) : list string :=
  map (PyPath.join input_folder)
      (filter (fun f => is_supported_file env (PyPath.join input_folder f))
              (listdir env input_folder)).

(** Where [transcribe_file] puts the audio of a video, and where the loop
    puts the transcript of a file. *)
Definition temp_audio_path (output_folder media_path : string) : string :=
  PyPath.join output_folder
    (fst (PyPath.splitext (PyPath.basename media_path)) ++ "_temp_audio.wav").

Definition transcript_path (output_folder media_file : string) : string :=
  PyPath.join output_folder
    (fst (PyPath.splitext (PyPath.basename media_file)) ++ ".txt").

Definition is_video (media_path : string) : bool :=
  str_in (lower (snd (PyPath.splitext media_path))) video_extensions.

Definition is_audio (media_path : string) : bool :=
  str_in (lower (snd (PyPath.splitext media_path))) audio_extensions.


(** An inventory of mixed names, and a machine whose disk is full when a
    video is to be unpacked. *)
Definition mixed_folder_env : Env :=
  example_env ["a.mp4"; "b.txt"; "c.WAV"; "notes"] (fun _ => Ok false)
              (fun _ => Ok (inject_Z 60)) (Raise no_such_file) ten_second_clock.


Definition long_film_env : Env :=
  example_env ["film.mkv"] (fun _ => Ok false)
              (fun _ => Ok (7325 # 1)) (Raise no_such_file) ten_second_clock.

(** An environment with another audio extractor, or another engine. *)
Definition with_write_audiofile (env : Env) (f : string -> string -> result unit) : Env :=
  {| time_time := time_time env;
     torch_cuda_is_available := torch_cuda_is_available env;
     virtual_memory_available := virtual_memory_available env;
     listdir := listdir env;
     isfile := isfile env;
     getsize := getsize env;
     makedirs := makedirs env;
     now_strftime := now_strftime env;
     getcwd := getcwd env;
     clip_duration := clip_duration env;
     shutil_copy := shutil_copy env;
     write_audiofile := f;
     whisper_model := whisper_model env;
     model_transcribe := model_transcribe env;
     open_read := open_read env;
     open_write := open_write env;
     file_write := file_write env;
     platform_platform := platform_platform env;
     sys_version := sys_version env;
     metadata_version := metadata_version env |}.

Definition with_model_transcribe (env : Env)
           (f : engine_call -> result (list string * string)) : Env :=
  {| time_time := time_time env;
     torch_cuda_is_available := torch_cuda_is_available env;
     virtual_memory_available := virtual_memory_available env;
     listdir := listdir env;
     isfile := isfile env;
     getsize := getsize env;
     makedirs := makedirs env;
     now_strftime := now_strftime env;
     getcwd := getcwd env;
     clip_duration := clip_duration env;
     shutil_copy := shutil_copy env;
     write_audiofile := write_audiofile env;
     whisper_model := whisper_model env;
     model_transcribe := f;
     open_read := open_read env;
     open_write := open_write env;
     file_write := file_write env;
     platform_platform := platform_platform env;
     sys_version := sys_version env;
     metadata_version := metadata_version env |}.

Definition disk_full : exn := mk_exn OtherError "No space left on device".
Definition bad_audio : exn := mk_exn OtherError "Invalid data found when processing input".
Definition permission_denied : exn := mk_exn OtherError "Permission denied".
Definition no_torch : exn := mk_exn ImportError "No module named 'torch'".

(** Two videos and no room to unpack their audio. *)
Definition full_disk_env : Env :=
  with_write_audiofile two_videos_env (fun _ _ => Raise disk_full).

(** One audio file the engine cannot read. *)
Definition bad_audio_env : Env :=
  with_model_transcribe one_talk_env (fun _ => Raise bad_audio).

(** A hotwords file that is there and may not be read. *)
Definition locked_hotwords_env : Env :=
  example_env ["talk.wav"] (fun _ => Ok false) (fun _ => Ok (inject_Z 60))
              (Raise permission_denied) ten_second_clock.

(** A machine without [torch]. *)
Definition no_torch_env : Env :=
  example_env ["talk.wav"] (fun _ => Raise no_torch) (fun _ => Ok (inject_Z 60))
              (Raise no_such_file) ten_second_clock.

(** * Properties *)

(** ** Decimal text and [int()] *)
Section Decimal.

Lemma digit_cases (d : Z) :
  0 <= d < 10 ->
  d = 0 \/ d = 1 \/ d = 2 \/ d = 3 \/ d = 4 \/ d = 5 \/ d = 6 \/ d = 7 \/ d = 8 \/ d = 9.
Proof. lia. Qed.

Lemma digit_char_is_digit (d : Z) :
  0 <= d < 10 -> PyStr.is_digit (PyStr.digit_char d) = true.
Proof.
  intros H. destruct (digit_cases d H) as [E|[E|[E|[E|[E|[E|[E|[E|[E|E]]]]]]]]];
    subst d; reflexivity.
Qed.

Lemma digit_val_char (d : Z) :
  0 <= d < 10 -> PyStr.digit_val (PyStr.digit_char d) = d.
Proof.
  intros H. destruct (digit_cases d H) as [E|[E|[E|[E|[E|[E|[E|[E|[E|E]]]]]]]]];
    subst d; reflexivity.
Qed.

Lemma all_digits_app (s t : string) :
  all_digits (s ++ t) = all_digits s && all_digits t.
Proof.
  induction s as [|c s IH]; simpl; [reflexivity|].
  rewrite IH. now rewrite andb_assoc.
Qed.

Lemma horner_app (s t : string) (acc : Z) :
  horner acc (s ++ t) = horner (horner acc s) t.
Proof.
  revert acc. induction s as [|c s IH]; intros acc; simpl; [reflexivity|apply IH].
Qed.

Lemma log2_div10_lt (n : Z) : 10 <= n -> Z.log2 (n / 10) < Z.log2 n.
Proof.
  intros H.
  assert (Hd : n / 10 <= n / 2).
  { apply Z.div_le_compat_l; lia. }
  assert (Hp : 0 < Z.log2 n) by (apply Z.log2_pos; lia).
  assert (H2 : Z.log2 (n / 2) = Z.log2 n - 1).
  { replace (n / 2) with (Z.shiftr n 1) by (rewrite Z.shiftr_div_pow2; [reflexivity|lia]).
    rewrite Z.log2_shiftr by lia. lia. }
  pose proof (Z.log2_le_mono _ _ Hd) as Hm.
  lia.
Qed.

Lemma decimal_fuel_digits (fuel : nat) :
  forall n, 0 <= n -> (Z.to_nat (Z.log2 n) < fuel)%nat ->
    all_digits (PyStr.decimal_fuel fuel n) = true /\
    PyStr.decimal_fuel fuel n <> EmptyString /\
    horner 0 (PyStr.decimal_fuel fuel n) = n.
Proof.
  induction fuel as [|f IH]; intros n Hn Hf; [lia|].
  simpl. destruct (Z.ltb_spec n 10) as [Hlt|Hge].
  - simpl. rewrite digit_char_is_digit, digit_val_char by lia.
    repeat split; try discriminate; try lia.
  - assert (Hq : 0 <= n / 10) by (apply Z.div_pos; lia).
    assert (Hl : (Z.to_nat (Z.log2 (n / 10)) < f)%nat).
    { pose proof (log2_div10_lt n Hge). pose proof (Z.log2_nonneg (n / 10)). lia. }
    destruct (IH (n / 10) Hq Hl) as (Ha & Hne & Hv).
    assert (Hm : 0 <= n mod 10 < 10) by (apply Z.mod_pos_bound; lia).
    repeat split.
    + rewrite all_digits_app, Ha. simpl. now rewrite digit_char_is_digit.
    + destruct (PyStr.decimal_fuel f (n / 10)); [congruence|discriminate].
    + rewrite horner_app, Hv. simpl. rewrite digit_val_char by lia.
      pose proof (Z.div_mod n 10). lia.
Qed.

Lemma decimal_digits (n : Z) :
  0 <= n ->
  all_digits (PyStr.decimal n) = true /\ PyStr.decimal n <> EmptyString /\
  horner 0 (PyStr.decimal n) = n.
Proof. intros H. apply decimal_fuel_digits; [exact H|lia]. Qed.

Lemma zeros_digits (k : nat) :
  all_digits (PyStr.zeros k) = true /\ forall s, horner 0 (PyStr.zeros k ++ s) = horner 0 s.
Proof.
  induction k as [|k [IHa IHh]]; simpl; [now split|]. split; [exact IHa|exact IHh].
Qed.

Lemma format_02d_digits (n : Z) :
  0 <= n ->
  all_digits (PyStr.format_02d n) = true /\ PyStr.format_02d n <> EmptyString /\
  horner 0 (PyStr.format_02d n) = n.
Proof.
  intros H. unfold PyStr.format_02d.
  destruct (Z.ltb_spec n 0) as [Hneg|_]; [lia|].
  destruct (decimal_digits n H) as (Ha & Hne & Hv).
  unfold PyStr.zfill.
  destruct (zeros_digits (2 - String.length (PyStr.decimal n))) as [Hz Hh].
  repeat split.
  - now rewrite all_digits_app, Hz, Ha.
  - destruct (PyStr.zeros _); simpl; [exact Hne|discriminate].
  - now rewrite Hh.
Qed.

Lemma digit_not_space (c : ascii) :
  PyStr.is_digit c = true -> PyStr.is_space c = false.
Proof.
  unfold PyStr.is_digit, PyStr.is_space. cbv zeta.
  set (n := Z.of_nat (nat_of_ascii c)). intros H.
  apply andb_true_iff in H. destruct H as [H1 H2].
  apply Z.leb_le in H1. apply Z.leb_le in H2.
  apply orb_false_iff. split; apply andb_false_iff; right; apply Z.leb_gt; lia.
Qed.

Lemma rstrip_digits (s : string) : all_digits s = true -> PyStr.rstrip s = s.
Proof.
  induction s as [|c s IH]; simpl; [reflexivity|].
  intros H. apply andb_true_iff in H. destruct H as [Hc Hs].
  rewrite (IH Hs), (digit_not_space c Hc). now rewrite andb_false_r.
Qed.

Lemma strip_digits (s : string) : all_digits s = true -> PyStr.strip s = s.
Proof.
  intros H. unfold PyStr.strip.
  destruct s as [|c s]; [reflexivity|].
  simpl in H. apply andb_true_iff in H. destruct H as [Hc Hs].
  cbn [PyStr.lstrip]. rewrite (digit_not_space c Hc).
  apply rstrip_digits. simpl. now rewrite Hc, Hs.
Qed.

Lemma digits_value_digits (s : string) :
  forall acc seen, all_digits s = true -> s <> EmptyString \/ seen = true ->
    PyStr.digits_value s acc seen = Some (horner acc s).
Proof.
  induction s as [|c s IH]; intros acc seen Ha Hs; simpl.
  - destruct Hs as [Hs|Hs]; [congruence|now rewrite Hs].
  - simpl in Ha. apply andb_true_iff in Ha. destruct Ha as [Hc Hr].
    rewrite Hc. apply IH; [exact Hr|now right].
Qed.

Lemma is_digit_range (c : ascii) :
  PyStr.is_digit c = true -> (48 <= nat_of_ascii c <= 57)%nat.
Proof.
  unfold PyStr.is_digit. intros H. apply andb_true_iff in H. destruct H as [H1 H2].
  apply Z.leb_le in H1. apply Z.leb_le in H2. lia.
Qed.

Lemma int_of_str_digits (s : string) :
  all_digits s = true -> s <> EmptyString ->
  PyStr.int_of_str s = Some (horner 0 s).
Proof.
  intros Ha Hne. unfold PyStr.int_of_str. rewrite (strip_digits s Ha).
  destruct s as [|c r]; [congruence|].
  assert (Hc : PyStr.is_digit c = true).
  { simpl in Ha. now apply andb_true_iff in Ha. }
  pose proof (digits_value_digits (String c r) 0 false Ha (or_introl Hne)) as Hv.
  pose proof (is_digit_range c Hc) as Hr.
  destruct c as [b0 b1 b2 b3 b4 b5 b6 b7].
  destruct b0, b1, b2, b3, b4, b5, b6, b7;
    first [exact Hv | (exfalso; cbv in Hr; lia)].
Qed.

Lemma int_of_str_format_02d (n : Z) :
  0 <= n -> PyStr.int_of_str (PyStr.format_02d n) = Some n.
Proof.
  intros H. destruct (format_02d_digits n H) as (Ha & Hne & Hv).
  now rewrite (int_of_str_digits _ Ha Hne), Hv.
Qed.

Lemma digits_no_colon (s : string) : all_digits s = true -> no_char ":" s = true.
Proof.
  induction s as [|c s IH]; simpl; [reflexivity|].
  intros H. apply andb_true_iff in H. destruct H as [Hc Hs].
  rewrite (IH Hs), andb_true_r.
  pose proof (is_digit_range c Hc) as Hr.
  destruct (Ascii.eqb_spec c ":") as [E|_]; [|reflexivity].
  subst c. cbv in Hr. lia.
Qed.

Lemma split_no_sep (sep : ascii) (s : string) :
  no_char sep s = true -> PyStr.split sep s = [s].
Proof.
  induction s as [|c s IH]; simpl; [reflexivity|].
  intros H. apply andb_true_iff in H. destruct H as [Hc Hs].
  apply negb_true_iff in Hc. rewrite Hc, (IH Hs). reflexivity.
Qed.

Lemma split_field (sep : ascii) (s t : string) :
  no_char sep s = true ->
  PyStr.split sep (s ++ String sep t) = s :: PyStr.split sep t.
Proof.
  induction s as [|c s IH]; simpl.
  - intros _. now rewrite Ascii.eqb_refl.
  - intros H. apply andb_true_iff in H. destruct H as [Hc Hs].
    apply negb_true_iff in Hc. rewrite Hc, (IH Hs). reflexivity.
Qed.

(** A two-field text [MM:SS] built by the formatter is read back exactly,
    whatever the number of minutes. *)
Lemma duration_to_seconds_mm_ss (m s : Z) :
  0 <= m -> 0 <= s ->
  duration_to_seconds (PyStr.format_02d m ++ ":" ++ PyStr.format_02d s) = m * 60 + s.
Proof.
  intros Hm Hs. unfold duration_to_seconds.
  destruct (format_02d_digits m Hm) as (Ham & _ & _).
  destruct (format_02d_digits s Hs) as (Has & _ & _).
  change (":" ++ PyStr.format_02d s) with (String ":" (PyStr.format_02d s)).
  rewrite (split_field ":" _ _ (digits_no_colon _ Ham)).
  rewrite (split_no_sep ":" _ (digits_no_colon _ Has)).
  now rewrite !int_of_str_format_02d.
Qed.

(** A three-field text [HH:MM:SS] does not fit the two-name unpacking. *)
Lemma duration_to_seconds_hh_mm_ss (h m s : Z) :
  0 <= h -> 0 <= m -> 0 <= s ->
  duration_to_seconds
    (PyStr.format_02d h ++ ":" ++ PyStr.format_02d m ++ ":" ++ PyStr.format_02d s) = 0.
Proof.
  intros Hh Hm Hs. unfold duration_to_seconds.
  destruct (format_02d_digits h Hh) as (Hah & _ & _).
  destruct (format_02d_digits m Hm) as (Ham & _ & _).
  destruct (format_02d_digits s Hs) as (Has & _ & _).
  change (":" ++ PyStr.format_02d m ++ ":" ++ PyStr.format_02d s)
    with (String ":" (PyStr.format_02d m ++ String ":" (PyStr.format_02d s))).
  rewrite (split_field ":" _ _ (digits_no_colon _ Hah)).
  rewrite (split_field ":" _ _ (digits_no_colon _ Ham)).
  rewrite (split_no_sep ":" _ (digits_no_colon _ Has)).
  reflexivity.
Qed.

End Decimal.

(** ** Model suggestion *)
Section Suggestion.

Lemma Qle_bool_false (x y : Q) : (y < x)%Q -> Qle_bool x y = false.
Proof.
  intros H. destruct (Qle_bool x y) eqn:E; [|reflexivity].
  apply Qle_bool_iff in E. exfalso. exact (Qlt_not_le _ _ H E).
Qed.

Lemma Qle_bool_true (x y : Q) : (x <= y)%Q -> Qle_bool x y = true.
Proof. intros H. now apply Qle_bool_iff. Qed.

Lemma Qle_bool_compat (x y y' : Q) : (y' == y)%Q -> Qle_bool x y' = Qle_bool x y.
Proof.
  intros E. destruct (Qle_bool x y) eqn:H.
  - apply Qle_bool_iff. apply Qle_bool_iff in H. now rewrite E.
  - destruct (Qle_bool x y') eqn:H'; [|reflexivity].
    apply Qle_bool_iff in H'. rewrite E in H'. apply Qle_bool_iff in H'. congruence.
Qed.

(** C10. The suggested model is [large] with an accelerator; without one it
    is [small] from 6 GB of memory on, [base] from 4 GB on and [tiny] below.
    The answer depends on nothing but the two arguments, and on the memory
    only through its value. *)
Theorem suggest_model_thresholds (ram_gb : Q) (use_cuda : bool) :
  (use_cuda = true -> suggest_model ram_gb use_cuda = "large") /\
  (use_cuda = false -> (6 <= ram_gb)%Q -> suggest_model ram_gb use_cuda = "small") /\
  (use_cuda = false -> (4 <= ram_gb)%Q -> (ram_gb < 6)%Q ->
   suggest_model ram_gb use_cuda = "base") /\
  (use_cuda = false -> (ram_gb < 4)%Q -> suggest_model ram_gb use_cuda = "tiny") /\
  (forall ram', (ram' == ram_gb)%Q ->
     suggest_model ram' use_cuda = suggest_model ram_gb use_cuda).
Proof.
  unfold suggest_model. repeat split.
  - intros ->. reflexivity.
  - intros -> H6. now rewrite (Qle_bool_true _ _ H6).
  - intros -> H4 H6. now rewrite (Qle_bool_false _ _ H6), (Qle_bool_true _ _ H4).
  - intros -> H4.
    assert (H6 : (ram_gb < 6)%Q) by (eapply Qlt_trans; [exact H4|reflexivity]).
    now rewrite (Qle_bool_false _ _ H6), (Qle_bool_false _ _ H4).
  - intros ram' E. destruct use_cuda; [reflexivity|].
    now rewrite !(Qle_bool_compat _ _ _ E).
Qed.

Lemma suggest_model_thresholds_witness :
  suggest_model 8 true = "large" /\ suggest_model 8 false = "small" /\
  suggest_model 5 false = "base" /\ suggest_model (7 # 2) false = "tiny".
Proof.
  split; [|split; [|split]].
  - apply (proj1 (suggest_model_thresholds 8 true)). reflexivity.
  - apply (proj1 (proj2 (suggest_model_thresholds 8 false))); [reflexivity|].
    unfold Qle. simpl. lia.
  - apply (proj1 (proj2 (proj2 (suggest_model_thresholds 5 false))));
      [reflexivity| |]; [unfold Qle|unfold Qlt]; simpl; lia.
  - apply (proj1 (proj2 (proj2 (proj2 (suggest_model_thresholds (7 # 2) false)))));
      [reflexivity|]. unfold Qlt. simpl. lia.
Defined.

End Suggestion.

(** ** Formatting and re-reading durations *)
Section DurationRoundTrip.

(** The text written by the duration probe, [MM:SS] with as many minute
    digits as needed, is read back to the second. *)
Lemma probe_text_round_trip (total_seconds : Z) :
  0 <= total_seconds ->
  duration_to_seconds
    (PyStr.format_02d (total_seconds / 60) ++ ":" ++
     PyStr.format_02d (total_seconds mod 60)) = total_seconds.
Proof.
  intros H.
  rewrite duration_to_seconds_mm_ss.
  - pose proof (Z.div_mod total_seconds 60). lia.
  - apply Z.div_pos; lia.
  - apply Z.mod_pos_bound. lia.
Qed.

(** C2, as the code has it. Formatting [N >= 0] seconds and reading the text
    back gives [N] as long as the formatter stays in its [MM:SS] form, that
    is below one hour; from one hour on the text is [HH:MM:SS], which the
    [MM:SS] reader answers with [0]. *)
Theorem format_then_parse (N : Z) :
  0 <= N ->
  duration_to_seconds (format_seconds (PInt N)) = if N <? 3600 then N else 0.
Proof.
  intros HN. unfold format_seconds. cbn [py_int]. cbv zeta.
  assert (Hr : 0 <= N mod 3600 < 3600) by (apply Z.mod_pos_bound; lia).
  assert (Hm : 0 <= N mod 3600 / 60) by (apply Z.div_pos; lia).
  assert (Hs : 0 <= (N mod 3600) mod 60 < 60) by (apply Z.mod_pos_bound; lia).
  destruct (Z.ltb_spec 0 (N / 3600)) as [Hh|Hh].
  - destruct (Z.ltb_spec N 3600) as [Hlt|_].
    + rewrite Z.div_small in Hh by lia. lia.
    + apply duration_to_seconds_hh_mm_ss; lia.
  - assert (Hlt : N < 3600).
    { pose proof (Z.div_mod N 3600). pose proof (Z.div_pos N 3600). lia. }
    destruct (Z.ltb_spec N 3600) as [_|Hge]; [|lia].
    rewrite duration_to_seconds_mm_ss by lia.
    rewrite (Z.mod_small N 3600) by lia.
    pose proof (Z.div_mod N 60). lia.
Qed.

Lemma format_then_parse_witness :
  0 <= 75 /\ duration_to_seconds (format_seconds (PInt 75)) = 75.
Proof. split; [lia|]. apply (format_then_parse 75). lia. Defined.

(** C2 as stated fails at one hour: [format_seconds] gives ["01:00:00"],
    which [duration_to_seconds] reads as [0]. *)
Lemma format_then_parse_one_hour :
  0 <= 3600 /\
  format_seconds (PInt 3600) = "01:00:00" /\
  duration_to_seconds (format_seconds (PInt 3600)) <> 3600.
Proof. split; [lia|]. split; [reflexivity|]. vm_compute. discriminate. Qed.

End DurationRoundTrip.

(** ** Trimming *)
Section Trimming.













Lemma hd_map_strip (l : list string) :
  hd EmptyString (map PyStr.strip l) = PyStr.strip (hd EmptyString l).
Proof. destruct l; reflexivity. Qed.



End Trimming.

(** ** Running the monad *)

Ltac unfold_monad :=
  unfold print in *;
  unfold bind, ret, raise, lift, modify, try_except, any_exception in *.

Ltac crunch :=
  repeat (cbv beta iota zeta in *;
          match goal with
          | H : (_, _) = (_, _) |- _ => inversion H; subst; clear H
          | H : context [match ?x with _ => _ end] |- _ => destruct x eqn:?
          end).

Lemma engine_call_ok_widen env hotwords model_size lo hi lo' hi' c :
  (lo' <= lo)%nat -> (hi <= hi')%nat ->
  engine_call_ok env hotwords model_size lo hi c ->
  engine_call_ok env hotwords model_size lo' hi' c.
Proof.
  intros Hlo Hhi (Hm & Hh & Hl & k & b & Hk & Ha & Hd).
  repeat split; try assumption. exists k, b. repeat split; try assumption; lia.
Qed.

Ltac finish_calls :=
  simpl in *;
  first
    [ exists []; split; [rewrite app_nil_r; congruence|];
      split; [simpl; lia|constructor]
    | match goal with
      | He : engine_log ?b = (_ ++ ?calls)%list, Hf : Forall _ ?calls |- _ =>
          exists calls; split; [congruence|]; split;
          [lia
          |eapply Forall_impl; [|exact Hf];
           intros c Hc; eapply engine_call_ok_widen; [| |exact Hc]; lia]
      end ].

Ltac use_probe :=
  unfold has_cuda_answer;
  repeat match goal with
         | H : torch_cuda_is_available _ _ = _ |- _ => rewrite H
         | H : is_import_error _ = _ |- _ => rewrite H
         end.

Section RunLemmas.

Variable env : Env.

(** The duration probe never raises; it leaves at most a warning behind. *)
Lemma get_media_duration_total (file_path : string) (w : World) :
  exists d w', get_media_duration env file_path w = (Ok d, w') /\
    (w' = w \/ exists line, w' = log_console w line /\ d = duration_error).
Proof.
  unfold get_media_duration. unfold_monad.
  destruct (str_in _ video_extensions || str_in _ audio_extensions).
  - destruct (clip_duration env file_path) as [d|e]; do 2 eexists.
    + split; [reflexivity|now left].
    + split; [reflexivity|]. right. eexists. split; reflexivity.
  - do 2 eexists. split; [reflexivity|now left].
Qed.


(** One call of [transcribe_file] probes the accelerator at most once and
    hands the engine at most one job, under the model and hotwords it was
    given. *)
Lemma transcribe_file_calls hotwords media_path output_folder model_size w r w' :
  transcribe_file env hotwords media_path output_folder model_size w = (r, w') ->
  exists calls, engine_log w' = (engine_log w ++ calls)%list /\
    (cuda_probes w + length calls <= cuda_probes w')%nat /\
    Forall (engine_call_ok env hotwords model_size (cuda_probes w) (cuda_probes w'))
           calls.
Proof.
  unfold transcribe_file, extract_audio_from_video, has_cuda, now. unfold_monad.
  intros H. crunch.
  all: simpl in *.
  all: first
         [ exists []; split; [now rewrite app_nil_r|]; split; [simpl; lia|constructor]
         | eexists [_]; split; [reflexivity|]; split; [simpl; lia|];
           constructor; [|constructor];
           repeat split; simpl;
           first [ exists (cuda_probes w), true; split; [lia|]; split;
                   [use_probe; reflexivity|reflexivity]
                 | exists (cuda_probes w), false; split; [lia|]; split;
                   [use_probe; reflexivity|reflexivity] ] ].
Qed.

(** Writing a file touches neither the engine nor the accelerator probe. *)
Lemma f_write_all_frame path chunks w r w' :
  f_write_all env path chunks w = (r, w') ->
  engine_log w' = engine_log w /\ cuda_probes w' = cuda_probes w /\
  open_files w' = open_files w.
Proof.
  revert w. induction chunks as [|c chunks IH]; intros w; simpl.
  - unfold_monad. intros H. crunch. auto.
  - unfold f_write. unfold_monad. intros H.
    destruct (file_write env path c).
    + apply IH in H. simpl in H. exact H.
    + crunch. auto.
Qed.

(** The loop body for one file: as [transcribe_file], since nothing else in
    it reaches the engine or the probe. *)
Lemma get_media_duration_quiet file_path w r w' :
  get_media_duration env file_path w = (r, w') ->
  engine_log w' = engine_log w /\ cuda_probes w' = cuda_probes w /\
  fs w' = fs w /\ open_files w' = open_files w.
Proof.
  intros H. destruct (get_media_duration_total file_path w) as (d & w1 & Hd & Hw1).
  rewrite Hd in H. inversion H; subst.
  destruct Hw1 as [->|(line & -> & _)]; repeat split.
Qed.

Lemma process_file_calls hotwords output_folder chosen_model acc media_file w r w' :
  process_file env hotwords output_folder chosen_model acc media_file w = (r, w') ->
  exists calls, engine_log w' = (engine_log w ++ calls)%list /\
    (cuda_probes w + length calls <= cuda_probes w')%nat /\
    Forall (engine_call_ok env hotwords chosen_model (cuda_probes w) (cuda_probes w'))
           calls.
Proof.
  unfold process_file. destruct acc as [processed failed].
  unfold with_open_write, f_write, speed_of. unfold_monad. intros H.
  crunch.
  all: repeat match goal with
         | H : get_media_duration _ _ _ = _ |- _ =>
             apply get_media_duration_quiet in H; destruct H as (? & ? & ? & ?)
         | H : transcribe_file _ _ _ _ _ _ = _ |- _ =>
             apply transcribe_file_calls in H; destruct H as (? & ? & ? & ?)
         end.
  all: finish_calls.
Qed.

Lemma process_files_calls hotwords output_folder chosen_model files :
  forall acc w r w',
    process_files env hotwords output_folder chosen_model files acc w = (r, w') ->
    exists calls, engine_log w' = (engine_log w ++ calls)%list /\
      (cuda_probes w + length calls <= cuda_probes w')%nat /\
      Forall (engine_call_ok env hotwords chosen_model (cuda_probes w) (cuda_probes w'))
             calls.
Proof.
  induction files as [|f rest IH]; intros acc w r w' H; simpl in H.
  - unfold ret in H. inversion H; subst.
    exists []. split; [now rewrite app_nil_r|]. split; [simpl; lia|constructor].
  - unfold bind in H.
    destruct (process_file env hotwords output_folder chosen_model acc f w)
      as [[acc1|e] w1] eqn:E.
    + apply process_file_calls in E. destruct E as (c1 & E1 & L1 & F1).
      apply IH in H. destruct H as (c2 & E2 & L2 & F2).
      exists (c1 ++ c2)%list. split; [|split].
      * rewrite E2, E1. now rewrite app_assoc.
      * rewrite length_app. lia.
      * apply Forall_app. split.
        -- eapply Forall_impl; [|exact F1]. intros c Hc.
           eapply engine_call_ok_widen; [| |exact Hc]; lia.
        -- eapply Forall_impl; [|exact F2]. intros c Hc.
           eapply engine_call_ok_widen; [| |exact Hc]; lia.
    + inversion H; subst. now apply process_file_calls in E.
Qed.

(** The loop body never raises and files exactly one record. *)
Lemma process_file_one_outcome hotwords output_folder chosen_model acc media_file w :
  exists acc' w',
    process_file env hotwords output_folder chosen_model acc media_file w = (Ok acc', w') /\
    one_more acc acc'.
Proof.
  destruct (process_file env hotwords output_folder chosen_model acc media_file w)
    as [r w'] eqn:H.
  revert H. unfold process_file. destruct acc as [processed failed].
  destruct (get_media_duration_total media_file w) as (d & w1 & Hd & _).
  unfold bind at 1. rewrite Hd.
  unfold with_open_write, f_write, speed_of. unfold_monad. intros H.
  crunch.
  all: eexists; eexists; (split; [reflexivity|]).
  all: first [ left; eexists; split; reflexivity | right; eexists; split; reflexivity ].
Qed.


End RunLemmas.

(** ** The whole run *)
Section MainLemmas.

Variable env : Env.

Lemma has_cuda_probes w r w' :
  has_cuda env w = (r, w') ->
  engine_log w' = engine_log w /\ cuda_probes w' = S (cuda_probes w).
Proof. unfold has_cuda. unfold_monad. intros H. crunch; now split. Qed.

Lemma read_hotwords_quiet file_path w r w' :
  read_hotwords env file_path w = (r, w') ->
  engine_log w' = engine_log w /\ cuda_probes w' = cuda_probes w.
Proof. unfold read_hotwords. unfold_monad. intros H. crunch; now split. Qed.

Lemma write_info_file_frame hotwords output_folder processed failed model_size total w r w' :
  write_info_file env hotwords output_folder processed failed model_size total w = (r, w') ->
  engine_log w' = engine_log w /\ (cuda_probes w <= cuda_probes w')%nat.
Proof.
  unfold write_info_file, get_system_info, with_open_write, get_available_ram.
  unfold_monad. intros H. crunch.
  all: repeat match goal with
         | H : has_cuda _ _ = _ |- _ => apply has_cuda_probes in H; destruct H
         | H : f_write_all _ _ _ _ = _ |- _ =>
             apply f_write_all_frame in H; destruct H as (? & ? & ?)
         end.
  all: simpl in *; split; [congruence|lia].
Qed.

Lemma main_calls input_folder args_model w r w' :
  main env input_folder args_model w = (r, w') ->
  exists chosen_model hotwords calls,
    engine_log w' = (engine_log w ++ calls)%list /\
    (calls <> [] -> (S (cuda_probes w) + length calls <= cuda_probes w')%nat) /\
    Forall (engine_call_ok env hotwords chosen_model (S (cuda_probes w)) (cuda_probes w'))
           calls /\
    (forall run, r = Ok (Some run) ->
       run_model run = chosen_model /\ run_hotwords run = hotwords).
Proof.
  unfold main, get_available_ram, now.
  unfold_monad. intros H. crunch.
  all: first
         [ match goal with
           | H : process_files _ ?hw _ ?m _ _ _ = (_, _) |- _ =>
               exists m, hw; apply process_files_calls in H;
               destruct H as (calls & E & L & F); exists calls
           end
         | exists EmptyString, None, [] ].
  all: repeat match goal with
         | H : has_cuda _ _ = _ |- _ => apply has_cuda_probes in H; destruct H
         | H : read_hotwords _ _ _ = _ |- _ => apply read_hotwords_quiet in H; destruct H
         | H : write_info_file _ _ _ _ _ _ _ _ = _ |- _ =>
             apply write_info_file_frame in H; destruct H
         end.
  all: simpl in *.
  all: split; [first [rewrite app_nil_r; congruence|congruence]|].
  all: split; [first [congruence|intros _; lia]|].
  all: split;
    [ first [ constructor
            | eapply Forall_impl; [|eassumption];
              intros c Hc; eapply engine_call_ok_widen; [| |exact Hc]; lia ]
    | intros run Hr;
      first [discriminate|inversion Hr; subst; split; reflexivity] ].
Qed.


End MainLemmas.

(** ** Speed *)
Section Speed.




End Speed.

(** ** The processing loop *)
Section Loop.

Variable env : Env.



(** C4, as the code has it. The model and the hotwords of a run are fixed
    before the loop: every job handed to the engine carries the same model,
    the same hotwords and the language [ru]. The device is not part of what
    is fixed: each job runs on the device named by an accelerator probe of
    its own, made after the start-up probe, so a run with engine jobs has
    probed at least once per job on top of the start-up probe; the jobs share
    a device whenever the probe keeps giving one answer. *)
Theorem engine_configuration_of_a_run
        (input_folder : string) (args_model : option string) (w : World)
        (r : result (option run_summary)) (w' : World) :
  main env input_folder args_model w = (r, w') ->
  exists chosen_model hotwords calls,
    engine_log w' = (engine_log w ++ calls)%list /\
    Forall (fun c => ec_model_size c = chosen_model /\ ec_hotwords c = hotwords /\
                     ec_language c = "ru") calls /\
    Forall (fun c => exists k b,
                (cuda_probes w < k < cuda_probes w')%nat /\
                has_cuda_answer env k = Some b /\ ec_device c = device_name b) calls /\
    (calls <> [] -> (S (cuda_probes w) + length calls <= cuda_probes w')%nat) /\
    (forall b, (forall k, has_cuda_answer env k = Some b) ->
               Forall (fun c => ec_device c = device_name b) calls) /\
    (forall run, r = Ok (Some run) ->
       run_model run = chosen_model /\ run_hotwords run = hotwords).
Proof.
  intros H.
  destruct (main_calls env _ _ _ _ _ H) as (m & hw & calls & E & L & F & R).
  exists m, hw, calls. repeat split; try assumption.
  - eapply Forall_impl; [|exact F]. intros c (Hm & Hh & Hl & _). now repeat split.
  - eapply Forall_impl; [|exact F]. intros c (_ & _ & _ & k & b & Hk & Ha & Hd).
    exists k, b. repeat split; try assumption; lia.
  - intros b Hb. eapply Forall_impl; [|exact F].
    intros c (_ & _ & _ & k & b' & _ & Ha & Hd).
    rewrite Hb in Ha. inversion Ha; subst. exact Hd.
  - now apply R.
  - now apply R.
Qed.


End Loop.

(** ** Runs of the example environments *)
Section Scenarios.



Lemma engine_configuration_of_a_run_witness :
  exists chosen_model hotwords calls,
    engine_log (snd (main flaky_cuda_env "in" None initial_world)) = calls /\
    length calls = 2%nat /\
    Forall (fun c => ec_model_size c = chosen_model /\ ec_hotwords c = hotwords /\
                     ec_language c = "ru") calls.
Proof.
  destruct (engine_configuration_of_a_run flaky_cuda_env "in" None initial_world
              (fst (main flaky_cuda_env "in" None initial_world))
              (snd (main flaky_cuda_env "in" None initial_world)))
    as (m & hw & calls & E & F & _).
  - apply surjective_pairing.
  - exists m, hw, calls. split; [exact E|]. split; [|exact F].
    change (engine_log initial_world ++ calls)%list with calls in E.
    rewrite <- E. vm_compute. reflexivity.
Defined.

(** C4 as stated fails on a machine whose accelerator probe changes its
    answer during the run: the two files of one run are transcribed on
    different devices, the accelerator being probed again for each file. *)
Lemma devices_differ_within_a_run :
  let w' := snd (main flaky_cuda_env "in" None initial_world) in
  map ec_audio_path (engine_log w') = ["in/a.wav"; "in/b.wav"] /\
  map ec_device (engine_log w') = ["cpu"; "cuda"] /\
  map ec_model_size (engine_log w') = ["large"; "large"] /\
  ~ (exists device, Forall (fun c => ec_device c = device) (engine_log w')).
Proof.
  cbv zeta. repeat split; try (vm_compute; reflexivity).
  intros (device & F).
  assert (E : map ec_device (engine_log (snd (main flaky_cuda_env "in" None initial_world)))
              = ["cpu"; "cuda"]) by (vm_compute; reflexivity).
  destruct (engine_log (snd (main flaky_cuda_env "in" None initial_world)))
    as [|c1 [|c2 l]]; try discriminate.
  pose proof (Forall_inv F) as H1.
  pose proof (Forall_inv (Forall_inv_tail F)) as H2.
  simpl in E, H1, H2. rewrite H1, H2 in E. inversion E; subst. discriminate.
Qed.



(** C5 fails on the code: the temporary audio extracted from a video is
    never deleted. After the loop body is done with [a.mp4] its extracted
    audio is still in the output folder (the file handles are closed), and
    at the end of a run over two videos both extracts are there. *)
Lemma temporary_audio_is_left_behind :
  let w1 := snd (process_file two_videos_env (Some "") "out" "small" ([], [])
                              "in/a.mp4" initial_world) in
  let w' := snd (main two_videos_env "in" None initial_world) in
  fs_get (fs w1) "out/a_temp_audio.wav" = Some (Media "in/a.mp4") /\
  open_files w1 = [] /\
  fs_get (fs w') "/work/2025-01-01_00-00-00_small/a_temp_audio.wav" =
    Some (Media "in/a.mp4") /\
  fs_get (fs w') "/work/2025-01-01_00-00-00_small/b_temp_audio.wav" =
    Some (Media "in/b.mp4") /\
  open_files w' = [].
Proof. cbv zeta. repeat split; vm_compute; reflexivity. Qed.

End Scenarios.

(** ** Transcript and hotwords *)
Section Texts.

(** What [transcribe_file] returns on success is the joined text of the
    segments the engine gave for that call. *)
Lemma transcribe_file_transcript env hotwords media_path output_folder model_size
      w transcription elapsed_time w' :
  transcribe_file env hotwords media_path output_folder model_size w =
    (Ok (transcription, elapsed_time), w') ->
  exists call segments language,
    model_transcribe env call = Ok (segments, language) /\
    transcription = join_segments segments.
Proof.
  unfold transcribe_file, extract_audio_from_video, has_cuda, now. unfold_monad.
  intros H. crunch.
  all: eexists _, _, _; split; [eassumption|reflexivity].
Qed.




(** The lines of a text add up to the text. *)
Lemma concat_file_lines (s : string) : String.concat EmptyString (file_lines s) = s.
Proof.
  induction s as [|c s IH]; [reflexivity|].
  cbn [file_lines]. destruct (Ascii.eqb_spec c LF) as [->|_].
  - destruct (file_lines s) as [|h t] eqn:E.
    + simpl in *. now rewrite <- IH.
    + change (String.concat EmptyString (nl :: h :: t))
        with (nl ++ String.concat EmptyString (h :: t)).
      now rewrite IH.
  - destruct (file_lines s) as [|h t] eqn:E.
    + simpl in *. now rewrite <- IH.
    + rewrite <- IH. destruct t; reflexivity.
Qed.





End Texts.

(** ** The report *)
Section Report.

Lemma startswith_app (p s t : string) :
  PyStr.startswith p s = true -> PyStr.startswith p (s ++ t) = true.
Proof.
  revert s. induction p as [|a p IH]; intros s; [reflexivity|].
  destruct s as [|b s]; simpl; [discriminate|].
  intros H. apply andb_true_iff in H. destruct H as [Hab Hp].
  now rewrite Hab, (IH s Hp).
Qed.

Lemma startswith_refl (p : string) : PyStr.startswith p p = true.
Proof. induction p as [|a p IH]; simpl; [reflexivity|]. now rewrite Ascii.eqb_refl. Qed.

Lemma contains_app_l (needle a b : string) :
  PyStr.contains needle a = true -> PyStr.contains needle (a ++ b) = true.
Proof.
  induction a as [|c a IH]; simpl.
  - rewrite orb_false_r. intros H.
    destruct needle; [destruct b; reflexivity|discriminate].
  - intros H. apply orb_true_iff in H. destruct H as [H|H].
    + change (String c (a ++ b)) with (String c a ++ b).
      now rewrite (startswith_app _ _ b H).
    + rewrite (IH H). apply orb_true_r.
Qed.

Lemma contains_app_r (needle a b : string) :
  PyStr.contains needle b = true -> PyStr.contains needle (a ++ b) = true.
Proof.
  intros H. induction a as [|c a IH]; simpl; [exact H|].
  rewrite IH. apply orb_true_r.
Qed.

Lemma contains_refl (s : string) : PyStr.contains s s = true.
Proof. destruct s; simpl; [reflexivity|]. now rewrite Ascii.eqb_refl, startswith_refl. Qed.

(** A chunk that was written is part of the document. *)
Lemma contains_concat (x : string) (l : list string) :
  In x l -> PyStr.contains x (String.concat EmptyString l) = true.
Proof.
  induction l as [|h t IH]; [contradiction|].
  intros [->|Hin].
  - destruct t as [|h' t']; [apply contains_refl|].
    change (String.concat EmptyString (x :: h' :: t'))
      with (x ++ String.concat EmptyString (h' :: t')).
    apply contains_app_l, contains_refl.
  - destruct t as [|h' t']; [contradiction|].
    change (String.concat EmptyString (h :: h' :: t'))
      with (h ++ String.concat EmptyString (h' :: t')).
    apply contains_app_r. now apply IH.
Qed.

Lemma no_char_app_sep (c : ascii) (a b : string) :
  no_char c (a ++ String c b) = false.
Proof.
  induction a as [|d a IH]; simpl.
  - now rewrite Ascii.eqb_refl.
  - rewrite IH. apply andb_false_r.
Qed.

Lemma key_value_not_header (kv : string * string) : key_value kv <> failures_header.
Proof.
  intros H. apply (f_equal (no_char ":")) in H.
  unfold key_value in H.
  change (fst kv ++ ": " ++ snd kv ++ nl)
    with (fst kv ++ String ":" (" " ++ snd kv ++ nl)) in H.
  rewrite no_char_app_sep in H. vm_compute in H. discriminate.
Qed.

Ltac not_header :=
  intros H; apply String.eqb_eq in H; vm_compute in H; discriminate.

Ltac not_header_1 :=
  intros H; unfold failures_header in H;
  apply (f_equal (fun s => String.get 0 s)) in H; vm_compute in H; discriminate.

Lemma processed_writes_no_header (processed : list processed_info) :
  Forall (fun s => s <> failures_header) (flat_map processed_writes processed).
Proof.
  induction processed as [|info rest IH]; [constructor|].
  cbn [flat_map]. apply Forall_app. split; [|exact IH].
  unfold processed_writes. repeat constructor; not_header_1.
Qed.

Lemma statistics_section_no_header (processed : list processed_info) :
  Forall (fun s => s <> failures_header) (statistics_section processed).
Proof.
  destruct processed as [|info rest]; cbn [statistics_section];
    repeat constructor; not_header_1.
Qed.

Lemma key_values_no_header (l : list (string * string)) :
  Forall (fun s => s <> failures_header) (map key_value l).
Proof.
  apply Forall_forall. intros s Hin. apply in_map_iff in Hin.
  destruct Hin as (kv & <- & _). apply key_value_not_header.
Qed.

(** With no failure to report, no write is the failures header. *)
Lemma info_writes_no_header hotwords processed model_size total_time_sec si libs :
  Forall (fun s => s <> failures_header)
         (info_writes hotwords processed [] model_size total_time_sec si libs).
Proof.
  unfold info_writes. cbn [failures_section].
  repeat (apply Forall_app; split);
    try apply processed_writes_no_header;
    try apply statistics_section_no_header;
    try apply key_values_no_header;
    try constructor.
  all: try solve [repeat constructor; first [not_header_1|not_header]].
Qed.

Ltac find_write :=
  unfold info_writes;
  repeat (apply in_or_app; first [left; solve [simpl; auto 10]|right]);
  try solve [simpl; auto 10].

(** C3, as the code has it. The report always carries the header of the
    successes section and the statistics section, and with no success the
    statistics section says so in a line of its own. The failures section is
    written under a test on the failure list: its header is in the report
    when there is a failure, and is not written at all when there is none. *)
Theorem report_sections
        (hotwords : option string) (processed : list processed_info)
        (failed_info : list failed_entry) (model_size : string) (total_time_sec : Q)
        (si : system_info) (library_versions : list (string * string)) :
  let writes :=
    info_writes hotwords processed failed_info model_size total_time_sec si
                library_versions in
  let document :=
    info_document hotwords processed failed_info model_size total_time_sec si
                  library_versions in
  PyStr.contains processed_header document = true /\
  PyStr.contains statistics_header document = true /\
  (processed = [] -> PyStr.contains no_processed_line document = true) /\
  (failed_info <> [] -> PyStr.contains failures_header document = true) /\
  (In failures_header writes <-> failed_info <> []).
Proof.
  cbv zeta. unfold info_document.
  split; [|split; [|split; [|split]]].
  - apply contains_concat. find_write.
  - apply contains_concat. find_write.
  - intros ->. apply contains_concat. find_write.
  - intros Hne. apply contains_concat.
    destruct failed_info as [|x rest]; [congruence|]. find_write.
  - split.
    + intros Hin ->.
      pose proof (info_writes_no_header hotwords processed model_size total_time_sec
                    si library_versions) as F.
      rewrite Forall_forall in F. exact (F _ Hin eq_refl).
    + intros Hne. destruct failed_info as [|x rest]; [congruence|]. find_write.
Qed.

Lemma report_sections_witness :
  PyStr.contains failures_header
    (info_document None []
       [mk_failed "c.wav" "in/c.wav" duration_failure_reason] "small" (50 # 1)
       example_system_info [("faster-whisper", "1.0")]) = true /\
  PyStr.contains no_processed_line
    (info_document None []
       [mk_failed "c.wav" "in/c.wav" duration_failure_reason] "small" (50 # 1)
       example_system_info [("faster-whisper", "1.0")]) = true.
Proof.
  destruct (report_sections None []
              [mk_failed "c.wav" "in/c.wav" duration_failure_reason] "small" (50 # 1)
              example_system_info [("faster-whisper", "1.0")])
    as (_ & _ & Hnone & Hfail & _).
  split; [apply Hfail; discriminate|apply Hnone; reflexivity].
Defined.

(** C3 as stated fails for a run without failures: the report has no
    failures header, neither when rendered from the records nor as the file
    the run of one good audio file leaves on disk. *)
Lemma report_without_failures_has_no_failures_header :
  PyStr.contains failures_title
    (info_document (Some EmptyString) [example_processed] [] "small" (50 # 1)
       example_system_info [("faster-whisper", "1.0")]) = false /\
  (exists run w' document,
     main one_talk_env "in" None initial_world = (Ok (Some run), w') /\
     run_failed run = [] /\
     fs_get (fs w') (PyPath.join (run_output_folder run) "_transcription.info") =
       Some (Text document) /\
     PyStr.contains processed_header document = true /\
     PyStr.contains failures_title document = false).
Proof.
  split; [vm_compute; reflexivity|].
  eexists _, _, _. split; [vm_compute; reflexivity|].
  split; [reflexivity|]. split; [vm_compute; reflexivity|].
  split; vm_compute; reflexivity.
Qed.

End Report.

(** ** Files left in the output folder *)
Section Leftovers.

Variable env : Env.

Lemma fs_get_put_same f p c : fs_get (fs_put f p c) p = Some c.
Proof.
  induction f as [|[q d] r IH]; simpl.
  - now rewrite String.eqb_refl.
  - destruct (String.eqb q p) eqn:E; simpl; [now rewrite String.eqb_refl|].
    now rewrite E.
Qed.

Lemma fs_put_keeps f p q c : fs_get f p <> None -> fs_get (fs_put f q c) p <> None.
Proof.
  induction f as [|[q' d] r IH]; simpl; [congruence|].
  destruct (String.eqb q' q) eqn:E; simpl.
  - apply String.eqb_eq in E. subst q'.
    destruct (String.eqb q p); [discriminate|exact (fun H => H)].
  - destruct (String.eqb q' p); [discriminate|exact IH].
Qed.

Lemma fs_append_keeps f p q chunk :
  fs_get f p <> None -> fs_get (fs_append f q chunk) p <> None.
Proof.
  unfold fs_append. destruct (fs_get f q) as [[s|s]|]; apply fs_put_keeps.
Qed.

(** [transcribe_file] deletes nothing, and on success for a video its
    extracted audio is in the output folder. *)
Lemma transcribe_file_leaves hotwords media_path output_folder model_size w r w' :
  transcribe_file env hotwords media_path output_folder model_size w = (r, w') ->
  (forall p, fs_get (fs w) p <> None -> fs_get (fs w') p <> None) /\
  (str_in (lower (snd (PyPath.splitext media_path))) video_extensions = true ->
   (exists v, r = Ok v) ->
   fs_get (fs w')
          (PyPath.join output_folder
             (fst (PyPath.splitext (PyPath.basename media_path)) ++ "_temp_audio.wav"))
   <> None).
Proof.
  unfold transcribe_file, extract_audio_from_video, has_cuda, now. unfold_monad.
  intros H. crunch.
  all: simpl; split;
    [ intros p Hp; try apply fs_put_keeps; exact Hp
    | intros Hv (v & Hr);
      first [ discriminate | congruence
            | rewrite fs_get_put_same; discriminate ] ].
Qed.

Lemma get_media_duration_fs file_path w r w' :
  get_media_duration env file_path w = (r, w') -> fs w' = fs w.
Proof. intros H. now apply get_media_duration_quiet in H. Qed.

(** The loop body deletes nothing; when it files a success for a video, the
    extracted audio is still in the output folder afterwards. *)
Lemma process_file_leaves hotwords output_folder chosen_model processed failed
      media_file w processed' failed' w' :
  process_file env hotwords output_folder chosen_model (processed, failed) media_file w =
    (Ok (processed', failed'), w') ->
  (forall p, fs_get (fs w) p <> None -> fs_get (fs w') p <> None) /\
  (str_in (lower (snd (PyPath.splitext media_file))) video_extensions = true ->
   failed' = failed ->
   fs_get (fs w')
          (PyPath.join output_folder
             (fst (PyPath.splitext (PyPath.basename media_file)) ++ "_temp_audio.wav"))
   <> None).
Proof.
  unfold process_file.
  unfold with_open_write, f_write, speed_of. unfold_monad. intros H.
  crunch.
  all: repeat match goal with
         | H : get_media_duration _ _ _ = _ |- _ => apply get_media_duration_fs in H
         | H : transcribe_file _ _ _ _ _ _ = _ |- _ =>
             apply transcribe_file_leaves in H; destruct H as (? & ?)
         end.
  all: cbn [fs set_fs set_open_files log_console log_engine] in *.
  all: split;
    [ intros p Hp;
      repeat first [apply fs_append_keeps|apply fs_put_keeps];
      try match goal with
          | Hk : forall q, fs_get _ q <> None -> fs_get (fs ?w2) q <> None
            |- fs_get (fs ?w2) _ <> None => apply Hk
          end;
      cbn [fs set_fs set_open_files log_console log_engine];
      repeat apply fs_put_keeps; congruence
    | intros Hv Hf;
      first
        [ exfalso; apply (f_equal (@length _)) in Hf; rewrite length_app in Hf;
          simpl in Hf; lia
        | repeat first [apply fs_append_keeps|apply fs_put_keeps];
          match goal with
          | Hk : _ -> (exists v, _) -> fs_get (fs ?w2) _ <> None |- _ =>
              apply Hk; [exact Hv|eexists; reflexivity]
          end ] ].
Qed.

Lemma process_files_keep hotwords output_folder chosen_model files :
  forall acc w r w',
    process_files env hotwords output_folder chosen_model files acc w = (r, w') ->
    forall p, fs_get (fs w) p <> None -> fs_get (fs w') p <> None.
Proof.
  induction files as [|f rest IH]; intros acc w r w' H p Hp; cbn [process_files] in H.
  - unfold ret in H. inversion H; subst. exact Hp.
  - unfold bind in H.
    destruct (process_file_one_outcome env hotwords output_folder chosen_model acc f w)
      as (acc1 & w1 & E & _).
    rewrite E in H. destruct acc as [pr fl]. destruct acc1 as [pr1 fl1].
    apply process_file_leaves in E. destruct E as [K _].
    eapply IH; [exact H|]. now apply K.
Qed.

(** Every video that was transcribed leaves its extracted audio in the
    output folder until the end of the loop. *)
Lemma temporary_audio_survives_the_loop hotwords output_folder chosen_model
      processed failed media_file rest w processed1 w1 r w2 :
  str_in (lower (snd (PyPath.splitext media_file))) video_extensions = true ->
  process_file env hotwords output_folder chosen_model (processed, failed) media_file w =
    (Ok (processed1, failed), w1) ->
  process_files env hotwords output_folder chosen_model rest (processed1, failed) w1 =
    (r, w2) ->
  fs_get (fs w2)
         (PyPath.join output_folder
            (fst (PyPath.splitext (PyPath.basename media_file)) ++ "_temp_audio.wav"))
  <> None.
Proof.
  intros Hv E1 E2.
  apply process_file_leaves in E1. destruct E1 as [_ T].
  eapply process_files_keep; [exact E2|]. now apply T.
Qed.

End Leftovers.

(** ** The one-file scenario *)
Section OneTalk.

(** One audio file of a minute, two segments ["hello "] and [" world"], ten
    seconds of transcription: the transcript file holds ["hello world"] and
    the recorded speed is [6]. *)
Lemma one_minute_talk_scenario :
  exists run w' p,
    main one_talk_env "in" None initial_world = (Ok (Some run), w') /\
    run_processed run = [p] /\ run_failed run = [] /\
    fs_get (fs w') (PyPath.join (run_output_folder run) "talk.txt") =
      Some (Text "hello world") /\
    (p_elapsed_time_sec p == 10)%Q /\ (p_speed_x p == 6)%Q.
Proof.
  eexists _, _, _. split; [vm_compute; reflexivity|].
  split; [reflexivity|]. repeat split.
Qed.

End OneTalk.

(** * Further properties *)

(** ** Duration texts *)
Section DurationTexts.

Lemma split_length (sep : ascii) (s : string) :
  length (PyStr.split sep s) = S (count_char sep s).
Proof.
  induction s as [|c s IH]; [reflexivity|].
  cbn [PyStr.split count_char]. destruct (Ascii.eqb c sep).
  - simpl. now rewrite IH.
  - destruct (PyStr.split sep s); simpl in *; [discriminate|exact IH].
Qed.

(** [duration_to_seconds] answers [0] for every text that does not have
    exactly one colon. *)
Theorem duration_to_seconds_needs_one_colon (duration_str : string) :
  count_char ":" duration_str <> 1%nat -> duration_to_seconds duration_str = 0.
Proof.
  intros H. unfold duration_to_seconds.
  pose proof (split_length ":" duration_str) as L.
  destruct (PyStr.split ":" duration_str) as [|a [|b [|c l]]]; try reflexivity.
  simpl in L. congruence.
Qed.

Lemma duration_to_seconds_needs_one_colon_witness :
  duration_to_seconds duration_error = 0 /\ duration_to_seconds "01:02:05" = 0.
Proof.
  split; apply duration_to_seconds_needs_one_colon; vm_compute; discriminate.
Defined.

(** The text of [format_seconds] carries the number of seconds exactly: its
    fields are two below one hour and three from one hour on, each reads as
    a number, and read in base 60 they give the seconds back. *)
Theorem format_seconds_fields (N : Z) :
  0 <= N ->
  exists fields,
    map PyStr.int_of_str (PyStr.split ":" (format_seconds (PInt N))) = map Some fields /\
    base60 fields = N /\
    length fields = (if N <? 3600 then 2%nat else 3%nat) /\
    Forall (fun x => 0 <= x) fields.
Proof.
  intros HN. unfold format_seconds. cbn [py_int]. cbv zeta.
  assert (Hr : 0 <= N mod 3600 < 3600) by (apply Z.mod_pos_bound; lia).
  assert (Hm : 0 <= N mod 3600 / 60) by (apply Z.div_pos; lia).
  assert (Hs : 0 <= (N mod 3600) mod 60 < 60) by (apply Z.mod_pos_bound; lia).
  assert (Hh : 0 <= N / 3600) by (apply Z.div_pos; lia).
  destruct (format_02d_digits _ Hh) as (Hah & _ & _).
  destruct (format_02d_digits _ Hm) as (Ham & _ & _).
  destruct (format_02d_digits _ (proj1 Hs)) as (Has & _ & _).
  pose proof (Z.div_mod N 3600 ltac:(lia)) as D1.
  pose proof (Z.div_mod (N mod 3600) 60 ltac:(lia)) as D2.
  destruct (Z.ltb_spec 0 (N / 3600)) as [Hpos|Hzero].
  - exists [N / 3600; N mod 3600 / 60; (N mod 3600) mod 60].
    change (":" ++ PyStr.format_02d (N mod 3600 / 60) ++ ":" ++
            PyStr.format_02d ((N mod 3600) mod 60))
      with (String ":" (PyStr.format_02d (N mod 3600 / 60) ++
                        String ":" (PyStr.format_02d ((N mod 3600) mod 60)))).
    rewrite (split_field ":" _ _ (digits_no_colon _ Hah)).
    rewrite (split_field ":" _ _ (digits_no_colon _ Ham)).
    rewrite (split_no_sep ":" _ (digits_no_colon _ Has)).
    cbn [map]. rewrite !int_of_str_format_02d by lia.
    repeat split.
    + unfold base60. simpl. lia.
    + destruct (Z.ltb_spec N 3600) as [Hlt|_]; [|reflexivity].
      rewrite Z.div_small in Hpos by lia. lia.
    + repeat constructor; lia.
  - exists [N mod 3600 / 60; (N mod 3600) mod 60].
    change (":" ++ PyStr.format_02d ((N mod 3600) mod 60))
      with (String ":" (PyStr.format_02d ((N mod 3600) mod 60))).
    rewrite (split_field ":" _ _ (digits_no_colon _ Ham)).
    rewrite (split_no_sep ":" _ (digits_no_colon _ Has)).
    cbn [map]. rewrite !int_of_str_format_02d by lia.
    repeat split.
    + unfold base60. simpl. lia.
    + destruct (Z.ltb_spec N 3600) as [_|Hge]; [reflexivity|lia].
    + repeat constructor; lia.
Qed.

Lemma format_seconds_fields_witness :
  exists fields,
    map PyStr.int_of_str (PyStr.split ":" (format_seconds (PInt 7325))) = map Some fields /\
    base60 fields = 7325 /\ length fields = 3%nat /\ Forall (fun x => 0 <= x) fields.
Proof. apply (format_seconds_fields 7325). lia. Defined.

(** A negative number of seconds is shown without a sign, as the minutes
    and seconds of its remainder modulo one hour. *)
Theorem format_seconds_negative (N : Z) :
  N < 0 ->
  format_seconds (PInt N) = format_seconds (PInt (N mod 3600)) /\
  format_seconds (PInt N) =
    PyStr.format_02d (N mod 3600 / 60) ++ ":" ++ PyStr.format_02d ((N mod 3600) mod 60).
Proof.
  intros HN. unfold format_seconds. cbn [py_int]. cbv zeta.
  assert (Hr : 0 <= N mod 3600 < 3600) by (apply Z.mod_pos_bound; lia).
  assert (Hh : N / 3600 < 0) by (apply Z.div_lt_upper_bound; lia).
  destruct (Z.ltb_spec 0 (N / 3600)) as [Hpos|_]; [lia|].
  rewrite (Z.div_small (N mod 3600) 3600) by lia.
  rewrite (Z.mod_small (N mod 3600) 3600) by lia.
  split; reflexivity.
Qed.

Lemma format_seconds_negative_witness :
  -1 < 0 /\ format_seconds (PInt (-1)) = "59:59".
Proof.
  split; [lia|].
  exact (proj2 (format_seconds_negative (-1) ltac:(lia))).
Defined.

End DurationTexts.

(** ** The duration probe *)
Section Probe.

Variable env : Env.

Lemma supported_is_video_or_audio (x : string) :
  str_in x supported_extensions = str_in x video_extensions || str_in x audio_extensions.
Proof.
  unfold str_in, supported_extensions, video_extensions, audio_extensions. simpl.
  now rewrite !orb_false_r, <- !orb_assoc.
Qed.

Lemma int_of_float_nonneg (q : Q) : (0 <= q)%Q -> 0 <= int_of_float q.
Proof.
  intros H. unfold int_of_float. apply Z.quot_pos; [|lia].
  unfold Qle in H. simpl in H. lia.
Qed.

Lemma digits_not_error_mark (s t : string) :
  all_digits s = true -> s <> EmptyString -> s ++ t <> duration_error.
Proof.
  intros Ha Hne. destruct s as [|c s]; [congruence|].
  simpl in Ha. apply andb_true_iff in Ha. destruct Ha as [Hc _].
  intros E. apply (f_equal (String.get 0)) in E. simpl in E.
  inversion E; subst. vm_compute in Hc. discriminate.
Qed.

(** A probe that succeeds on a media file gives a text [MM:SS] that reads
    back to the whole seconds of the duration, however long the media is,
    and that is not the error mark; nothing is printed. *)
Theorem probed_duration_reads_back (file_path : string) (d : Q) (w : World) :
  str_in (lower (snd (PyPath.splitext file_path))) supported_extensions = true ->
  clip_duration env file_path = Ok d ->
  (0 <= d)%Q ->
  exists text,
    get_media_duration env file_path w = (Ok text, w) /\
    duration_to_seconds text = int_of_float d /\
    text <> duration_error.
Proof.
  intros Hext Hclip Hd. rewrite supported_is_video_or_audio in Hext.
  pose proof (int_of_float_nonneg d Hd) as Hn.
  unfold get_media_duration. unfold_monad. rewrite Hext, Hclip.
  eexists. split; [reflexivity|]. split.
  - now apply probe_text_round_trip.
  - assert (Hq : 0 <= int_of_float d / 60) by (apply Z.div_pos; lia).
    destruct (format_02d_digits _ Hq) as (Ha & Hne & _).
    now apply digits_not_error_mark.
Qed.


End Probe.

Lemma probed_duration_reads_back_witness :
  exists text,
    get_media_duration long_film_env "in/film.mkv" initial_world = (Ok text, initial_world) /\
    duration_to_seconds text = 7325 /\ text <> duration_error.
Proof.
  apply (probed_duration_reads_back long_film_env "in/film.mkv" (7325 # 1) initial_world).
  - reflexivity.
  - reflexivity.
  - unfold Qle. simpl. lia.
Defined.

(** ** Records of the loop *)
Section Records.

Variable env : Env.



End Records.

(** ** One call of the engine *)
Section EngineCall.

Variable env : Env.

(** A successful [transcribe_file]: the clock is read on entry and after
    the segments are joined, so the elapsed time (rounded to hundredths)
    covers audio extraction and model loading too; the accelerator is probed
    once; the engine gets one job, on the extracted audio for a video (which
    is written to the output folder) and on the file itself for audio, in
    Russian, with the hotwords and model it was given; the transcript is the
    joined text of the segments of that job. *)
Theorem transcribe_file_success
        (hotwords : option string) (media_path output_folder model_size : string)
        (w : World) (transcription : string) (elapsed_time : Q) (w' : World) :
  transcribe_file env hotwords media_path output_folder model_size w =
    (Ok (transcription, elapsed_time), w') ->
  clock_reads w' = S (S (clock_reads w)) /\
  elapsed_time =
    round2 (time_time env (S (clock_reads w)) - time_time env (clock_reads w)) /\
  cuda_probes w' = S (cuda_probes w) /\
  open_files w' = open_files w /\
  fs w' = (if is_video media_path
           then fs_put (fs w) (temp_audio_path output_folder media_path) (Media media_path)
           else fs w) /\
  exists cuda segments language,
    has_cuda_answer env (cuda_probes w) = Some cuda /\
    let call :=
      mk_engine_call (if is_video media_path
                      then temp_audio_path output_folder media_path
                      else media_path)
                     model_size (device_name cuda) "ru" hotwords in
    engine_log w' = (engine_log w ++ [call])%list /\
    model_transcribe env call = Ok (segments, language) /\
    transcription = join_segments segments.
Proof.
  unfold transcribe_file, extract_audio_from_video, has_cuda, now, is_video,
    temp_audio_path.
  unfold_monad. intros H. crunch.
  all: cbn [clock_reads cuda_probes open_files fs engine_log
            tick_clock tick_cuda set_fs log_engine] in *.
  all: repeat match goal with
         | H : str_in _ video_extensions = _ |- _ => rewrite H
         end.
  all: repeat split.
  all: first
         [ exists true; do 2 eexists; split; [use_probe; reflexivity|];
           cbv zeta; split; [reflexivity|]; split; [eassumption|reflexivity]
         | exists false; do 2 eexists; split; [use_probe; reflexivity|];
           cbv zeta; split; [reflexivity|]; split; [eassumption|reflexivity] ].
Qed.

End EngineCall.

(** ** Failures inside the loop body *)
Section BodyFailures.

Variable env : Env.

Lemma format_02d_not_error_mark (m : Z) (t : string) :
  PyStr.format_02d m ++ t <> duration_error.
Proof.
  destruct (Z.ltb_spec m 0) as [Hneg|Hpos].
  - unfold PyStr.format_02d. apply Z.ltb_lt in Hneg. rewrite Hneg.
    intros E. apply (f_equal (String.get 0)) in E. vm_compute in E. discriminate.
  - destruct (format_02d_digits m Hpos) as (Ha & Hne & _).
    now apply digits_not_error_mark.
Qed.

(** A probe that answers leaves the world alone and does not give the error
    mark. *)
Lemma get_media_duration_answer (file_path : string) (d : Q) (w : World) :
  str_in (lower (snd (PyPath.splitext file_path))) supported_extensions = true ->
  clip_duration env file_path = Ok d ->
  exists text,
    get_media_duration env file_path w = (Ok text, w) /\
    String.eqb text duration_error = false.
Proof.
  intros Hext Hclip. rewrite supported_is_video_or_audio in Hext.
  unfold get_media_duration. unfold_monad. rewrite Hext, Hclip.
  eexists. split; [reflexivity|].
  apply String.eqb_neq. apply format_02d_not_error_mark.
Qed.

Lemma is_video_supported (media_file : string) :
  is_video media_file = true ->
  str_in (lower (snd (PyPath.splitext media_file))) supported_extensions = true.
Proof.
  unfold is_video. intros H. rewrite supported_is_video_or_audio, H. reflexivity.
Qed.

Lemma is_audio_supported (media_file : string) :
  is_audio media_file = true ->
  str_in (lower (snd (PyPath.splitext media_file))) supported_extensions = true.
Proof.
  unfold is_audio. intros H. rewrite supported_is_video_or_audio, H. apply orb_true_r.
Qed.

(** A video whose audio cannot be extracted: [transcribe_file] raises the
    extraction error having done nothing but read the clock, and the loop
    body, the duration probe having answered, files a failure whose reason
    is the message of that error; the engine and the accelerator probe are
    not reached. *)
Theorem extraction_failure_is_recorded
        (hotwords : option string) (output_folder chosen_model : string)
        (processed : list processed_info) (failed : list failed_entry)
        (media_file : string) (d : Q) (e : exn) (w : World) :
  is_video media_file = true ->
  clip_duration env media_file = Ok d ->
  write_audiofile env media_file (temp_audio_path output_folder media_file) = Raise e ->
  (forall w0,
     transcribe_file env hotwords media_file output_folder chosen_model w0 =
       (Raise e, tick_clock w0)) /\
  exists w',
    process_file env hotwords output_folder chosen_model (processed, failed) media_file w =
      (Ok (processed,
           (failed ++ [mk_failed (PyPath.basename media_file) media_file (message e)])%list),
       w') /\
    engine_log w' = engine_log w /\ cuda_probes w' = cuda_probes w.
Proof.
  intros Hv Hclip Hx.
  assert (T : forall w0,
             transcribe_file env hotwords media_file output_folder chosen_model w0 =
               (Raise e, tick_clock w0)).
  { intros w0. unfold transcribe_file, extract_audio_from_video, now. unfold_monad.
    unfold is_video in Hv. rewrite Hv. unfold temp_audio_path in Hx. now rewrite Hx. }
  split; [exact T|].
  destruct (get_media_duration_answer media_file d w (is_video_supported _ Hv) Hclip)
    as (text & Hd & Hne).
  unfold process_file. unfold bind at 1. rewrite Hd. unfold_monad. rewrite Hne.
  destruct (shutil_copy env media_file _); rewrite T; eexists; repeat split.
Qed.


Lemma audio_is_not_video (media_file : string) :
  is_audio media_file = true -> is_video media_file = false.
Proof.
  unfold is_audio, is_video, str_in, audio_extensions, video_extensions.
  generalize (lower (snd (PyPath.splitext media_file))). intros x. simpl.
  rewrite !orb_false_r. intros H.
  repeat (apply orb_true_iff in H; destruct H as [H|H]);
    apply String.eqb_eq in H; subst x; reflexivity.
Qed.

(** An engine that raises on an audio file: the job was handed over, on the
    device the probe named, and the loop body files a failure whose reason
    is the message of the engine's error. *)
Theorem engine_failure_is_recorded
        (hotwords : option string) (output_folder chosen_model : string)
        (processed : list processed_info) (failed : list failed_entry)
        (media_file : string) (d : Q) (cuda : bool) (e : exn) (w : World) :
  is_audio media_file = true ->
  clip_duration env media_file = Ok d ->
  has_cuda_answer env (cuda_probes w) = Some cuda ->
  whisper_model env chosen_model (device_name cuda) = Ok tt ->
  let call := mk_engine_call media_file chosen_model (device_name cuda) "ru" hotwords in
  model_transcribe env call = Raise e ->
  exists w',
    process_file env hotwords output_folder chosen_model (processed, failed) media_file w =
      (Ok (processed,
           (failed ++ [mk_failed (PyPath.basename media_file) media_file (message e)])%list),
       w') /\
    engine_log w' = (engine_log w ++ [call])%list /\
    cuda_probes w' = S (cuda_probes w).
Proof.
  intros Ha Hclip Hcuda Hload call Hengine.
  pose proof (audio_is_not_video _ Ha) as Hv.
  assert (T : forall w0, cuda_probes w0 = cuda_probes w ->
             transcribe_file env hotwords media_file output_folder chosen_model w0 =
               (Raise e, log_engine (tick_cuda (tick_clock w0)) call)).
  { intros w0 Hw0. unfold transcribe_file, has_cuda, now. unfold_monad.
    unfold is_video in Hv. unfold is_audio in Ha. rewrite Hv, Ha.
    cbn [cuda_probes tick_clock]. rewrite Hw0.
    unfold has_cuda_answer in Hcuda.
    destruct (torch_cuda_is_available env (cuda_probes w)) as [b|e0].
    - inversion Hcuda; subst b. fold (device_name cuda). rewrite Hload.
      fold call. now rewrite Hengine.
    - destruct (is_import_error e0); [|discriminate].
      inversion Hcuda; subst cuda. cbn [device_name] in *. rewrite Hload.
      fold call. now rewrite Hengine. }
  destruct (get_media_duration_answer media_file d w (is_audio_supported _ Ha) Hclip)
    as (text & Hd & Hne).
  unfold process_file. unfold bind at 1. rewrite Hd. unfold_monad. rewrite Hne.
  destruct (shutil_copy env media_file _); rewrite T by reflexivity;
    eexists; repeat split.
Qed.

End BodyFailures.

(** ** What a success leaves behind *)
Section Persist.

Variable env : Env.

Lemma fs_get_append_fresh (f : list (string * file_content)) (p chunk : string) :
  fs_get (fs_append (fs_put f p (Text EmptyString)) p chunk) p = Some (Text chunk).
Proof.
  unfold fs_append. rewrite fs_get_put_same. cbn [append]. apply fs_get_put_same.
Qed.

(** A success of the loop body: the transcript file, named after the source
    file with its extension replaced by [.txt], holds the joined text of the
    segments the engine returned; the record keeps the probe's duration text
    and its value in seconds, the elapsed time and its display form, and the
    size in mebibytes rounded to hundredths. *)
Theorem success_is_persisted
        (hotwords : option string) (output_folder chosen_model : string)
        (processed : list processed_info) (failed : list failed_entry)
        (media_file : string) (w : World)
        (failed' : list failed_entry) (p : processed_info) (w' : World) :
  process_file env hotwords output_folder chosen_model (processed, failed) media_file w =
    (Ok ((processed ++ [p])%list, failed'), w') ->
  failed' = failed /\
  (exists call segments language,
     model_transcribe env call = Ok (segments, language) /\
     fs_get (fs w') (transcript_path output_folder media_file) =
       Some (Text (join_segments segments))) /\
  p_media_duration_sec p = duration_to_seconds (p_duration p) /\
  p_elapsed_time_str p = format_seconds (PFloat (p_elapsed_time_sec p)) /\
  (exists size, getsize env media_file = Ok size /\
                p_size_mb p = round2 (Qmake size (2 ^ 20))) /\
  (exists w0, get_media_duration env media_file w = (Ok (p_duration p), w0)).
Proof.
  unfold process_file, transcript_path.
  destruct (get_media_duration_total env media_file w) as (d & w1 & Hd & _).
  unfold bind at 1. rewrite Hd.
  unfold with_open_write, f_write, speed_of. unfold_monad. intros H.
  crunch.
  all: try (exfalso;
            match goal with
            | H : ?l = (?l ++ [_])%list |- _ =>
                apply (f_equal (@length _)) in H; rewrite length_app in H;
                simpl in H; lia
            end).
  all: match goal with
       | H : (?l ++ [_])%list = (?l ++ [_])%list |- _ =>
           apply app_inv_head in H; inversion H; subst; clear H
       end.
  all: match goal with
       | H : transcribe_file _ _ _ _ _ _ = _ |- _ =>
           apply transcribe_file_transcript in H;
           destruct H as (call & segments & language & Hcall & ->)
       end.
  all: cbn [fs set_fs set_open_files p_media_duration_sec p_duration
            p_elapsed_time_str p_elapsed_time_sec p_size_mb].
  all: split; [reflexivity|].
  all: split; [exists call, segments, language; split;
               [exact Hcall|apply fs_get_append_fresh]|].
  all: split; [reflexivity|]; split; [reflexivity|].
  all: split; [eexists; split; reflexivity|].
  all: eexists; reflexivity.
Qed.

End Persist.

(** ** Handles and files across the run *)
Section Frames.

Variable env : Env.











End Frames.

(** ** The run as a whole *)
Section WholeRun.

Variable env : Env.



Lemma has_cuda_ok w b w' :
  has_cuda env w = (Ok b, w') ->
  has_cuda_answer env (cuda_probes w) = Some b /\ w' = tick_cuda w.
Proof.
  unfold has_cuda, has_cuda_answer. unfold_monad. intros H. crunch; now split.
Qed.

(** What a completed run went through. *)
Lemma main_success_anatomy input_folder args_model w run w' :
  main env input_folder args_model w = (Ok (Some run), w') ->
  run_files run = inventory env input_folder /\
  run_files run <> [] /\
  run_output_folder run =
    PyPath.join (getcwd env) (now_strftime env ++ "_" ++ run_model run) /\
  (exists cuda,
     has_cuda_answer env (cuda_probes w) = Some cuda /\
     run_model run =
       match args_model with
       | Some m =>
           if PyStr.is_empty m
           then suggest_model (Qmake (virtual_memory_available env (ram_probes w)) (2 ^ 30))
                              cuda
           else m
       | None =>
           suggest_model (Qmake (virtual_memory_available env (ram_probes w)) (2 ^ 30)) cuda
       end) /\
  exists w1 w2 w3 total u,
    read_hotwords env "hotwords.txt" w1 = (Ok (run_hotwords run), w2) /\
    process_files env (run_hotwords run) (run_output_folder run) (run_model run)
                  (run_files run) ([], []) w2 =
      (Ok (run_processed run, run_failed run), w3) /\
    write_info_file env (run_hotwords run) (run_output_folder run) (run_processed run)
                    (run_failed run) (run_model run) total (tick_clock w3) = (Ok u, w').
Proof.
  unfold main, get_available_ram, now. unfold_monad.
  fold (inventory env input_folder). intros H. crunch.
  all: match goal with
       | H : has_cuda _ _ = _ |- _ => apply has_cuda_ok in H; destruct H as (Hc & ->)
       end.
  all: cbn [run_files run_model run_hotwords run_output_folder run_processed
            run_failed cuda_probes ram_probes tick_clock tick_ram] in *.
  all: split; [congruence|]; split; [discriminate|]; split; [reflexivity|].
  all: split; [eexists; split; [exact Hc|];
               repeat match goal with H : PyStr.is_empty _ = _ |- _ => rewrite H end;
               reflexivity|].
  all: do 5 eexists; split; [eassumption|]; split; eassumption.
Qed.

(** The model of a completed run: an explicit [--model] wins; without one
    it is the suggestion for the memory and the accelerator probed at
    start-up; the output folder is named after the timestamp and that
    model, under the working directory; the files are the inventory. *)
Theorem run_configuration
        (input_folder : string) (args_model : option string) (w : World)
        (run : run_summary) (w' : World) :
  main env input_folder args_model w = (Ok (Some run), w') ->
  run_files run = inventory env input_folder /\
  run_files run <> [] /\
  run_output_folder run =
    PyPath.join (getcwd env) (now_strftime env ++ "_" ++ run_model run) /\
  (forall m, args_model = Some m -> m <> EmptyString -> run_model run = m) /\
  (args_model = None ->
   exists cuda,
     has_cuda_answer env (cuda_probes w) = Some cuda /\
     run_model run =
       suggest_model (Qmake (virtual_memory_available env (ram_probes w)) (2 ^ 30)) cuda /\
     In (run_model run) ["large"; "small"; "base"; "tiny"]).
Proof.
  intros H. destruct (main_success_anatomy _ _ _ _ _ H) as (Hf & Hne & Ho & Hm & _).
  destruct Hm as (cuda & Hc & Hm).
  repeat split; try assumption.
  - intros m -> Hm'. rewrite Hm. destruct m; [congruence|reflexivity].
  - intros ->. exists cuda. repeat split; try assumption.
    rewrite Hm. unfold suggest_model.
    destruct cuda; [simpl; auto|].
    destruct (Qle_bool 6 _); [simpl; auto|].
    destruct (Qle_bool 4 _); simpl; auto.
Qed.


End WholeRun.

(** ** What no run does *)
Section NoRun.

Variable env : Env.

Lemma has_cuda_world w r w' : has_cuda env w = (r, w') -> w' = tick_cuda w.
Proof. unfold has_cuda. unfold_monad. intros H. crunch; reflexivity. Qed.




(** Only a missing hotwords file is forgiven: any other error of reading it
    leaves [read_hotwords] as it came, unannounced, and a run that got as
    far as reading it ends with that error before any file is copied,
    probed or transcribed. *)
Theorem unreadable_hotwords_stop_the_run (e : exn) :
  open_read env "hotwords.txt" = Raise e ->
  is_file_not_found e = false ->
  (forall w, read_hotwords env "hotwords.txt" w = (Raise e, w)) /\
  (forall input_folder args_model w r w',
     main env input_folder args_model w = (r, w') ->
     (forall run, r <> Ok (Some run)) /\
     engine_log w' = engine_log w /\ fs w' = fs w).
Proof.
  intros Hopen Hkind.
  assert (R : forall w, read_hotwords env "hotwords.txt" w = (Raise e, w)).
  { intros w. unfold read_hotwords. unfold_monad. now rewrite Hopen, Hkind. }
  split; [exact R|].
  intros input_folder args_model w r w'.
  unfold main, get_available_ram, now. unfold_monad. intros H. crunch.
  all: try match goal with
         | H : read_hotwords _ _ _ = (Ok _, _) |- _ => rewrite R in H; discriminate
         end.
  all: repeat match goal with
         | H : has_cuda _ _ = _ |- _ => apply has_cuda_world in H; subst
         | H : read_hotwords _ _ _ = _ |- _ => rewrite R in H; inversion H; subst; clear H
         end.
  all: cbn [fs engine_log tick_clock tick_cuda tick_ram log_console].
  all: split; [intros run; discriminate|split; reflexivity].
Qed.

End NoRun.

(** ** Machines without torch, library versions, records in the report *)
Section Misc.

Variable env : Env.

(** On a machine without [torch] every accelerator probe answers no: every
    job of a run goes to the [cpu], and a run without [--model] never picks
    [large]. *)
Theorem without_torch_everything_runs_on_cpu
        (input_folder : string) (args_model : option string) (w : World)
        (r : result (option run_summary)) (w' : World) :
  (forall k, exists e, torch_cuda_is_available env k = Raise e /\
                       is_import_error e = true) ->
  main env input_folder args_model w = (r, w') ->
  (exists calls, engine_log w' = (engine_log w ++ calls)%list /\
                 Forall (fun c => ec_device c = "cpu") calls) /\
  (forall run, r = Ok (Some run) -> args_model = None ->
               In (run_model run) ["small"; "base"; "tiny"]).
Proof.
  intros Hno H.
  assert (A : forall k, has_cuda_answer env k = Some false).
  { intros k. destruct (Hno k) as (e & He & Hi). unfold has_cuda_answer.
    now rewrite He, Hi. }
  split.
  - destruct (main_calls env _ _ _ _ _ H) as (m & hw & calls & E & _ & F & _).
    exists calls. split; [exact E|].
    eapply Forall_impl; [|exact F].
    intros c (_ & _ & _ & k & b & _ & Hb & Hd).
    rewrite A in Hb. inversion Hb; subst b. exact Hd.
  - intros run -> ->.
    destruct (main_success_anatomy env _ _ _ _ _ H) as (_ & _ & _ & Hm & _).
    destruct Hm as (cuda & Hc & Hm). rewrite A in Hc. inversion Hc; subst cuda.
    rewrite Hm. unfold suggest_model.
    destruct (Qle_bool 6 _); [simpl; auto|].
    destruct (Qle_bool 4 _); simpl; auto.
Qed.

Lemma lookup_version_map (f : string -> string) (libs : list string) (lib : string) :
  In lib libs ->
  lookup_version (map (fun l => (l, f l)) libs) lib = f lib.
Proof.
  unfold lookup_version. induction libs as [|l libs IH]; [contradiction|].
  intros Hin. cbn [map find fst]. destruct (String.eqb_spec l lib) as [->|Hne].
  - reflexivity.
  - destruct Hin as [->|Hin]; [congruence|]. now apply IH.
Qed.

(** The table of library versions always has its seven rows, in the fixed
    order, whatever the look-ups do: a library that is not installed shows
    as "not installed", any other look-up error as "unknown", and looking a
    listed library up in the table gives its row. *)
Theorem library_versions_table :
  map fst (get_library_versions env) = libraries /\
  forall lib, In lib libraries ->
    lookup_version (get_library_versions env) lib =
      match metadata_version env lib with
      | Ok v => v
      | Raise e => if is_import_error e then "not installed" else "unknown"
      end.
Proof.
  unfold get_library_versions. split.
  - rewrite map_map. cbn [fst]. apply map_id.
  - intros lib Hin.
    exact (lookup_version_map
             (fun l => match metadata_version env l with
                       | Ok v => v
                       | Raise e => if is_import_error e then "not installed"
                                    else "unknown"
                       end) libraries lib Hin).
Qed.

End Misc.

Section ReportRecords.

Lemma in_info_writes_processed hotwords processed failed_info model_size total si libs
      info line :
  In info processed -> In line (processed_writes info) ->
  In line (info_writes hotwords processed failed_info model_size total si libs).
Proof.
  intros Hi Hl. unfold info_writes.
  apply in_or_app. right. apply in_or_app. left.
  apply in_flat_map. now exists info.
Qed.

Lemma in_info_writes_failed hotwords processed failed_info model_size total si libs
      info line :
  In info failed_info -> In line (failed_writes info) ->
  In line (info_writes hotwords processed failed_info model_size total si libs).
Proof.
  intros Hi Hl. unfold info_writes.
  apply in_or_app. right. apply in_or_app. right. apply in_or_app. left.
  destruct failed_info as [|x rest]; [contradiction|].
  cbn [failures_section]. right. apply in_flat_map. now exists info.
Qed.

(** Every record handed to the report is in it: each success with its
    name, path and duration lines, each failure with its name, path and
    reason lines. *)
Theorem every_record_is_reported
        (hotwords : option string) (processed : list processed_info)
        (failed_info : list failed_entry) (model_size : string) (total_time_sec : Q)
        (si : system_info) (library_versions : list (string * string)) :
  let document :=
    info_document hotwords processed failed_info model_size total_time_sec si
                  library_versions in
  (forall info, In info processed ->
     PyStr.contains ("📌 Файл: " ++ p_name info ++ nl) document = true /\
     PyStr.contains ("Путь: " ++ p_path info ++ nl) document = true /\
     PyStr.contains ("Длительность: " ++ p_duration info ++ nl) document = true) /\
  (forall info, In info failed_info ->
     PyStr.contains ("📌 Файл: " ++ f_name info ++ nl) document = true /\
     PyStr.contains ("Путь: " ++ f_path info ++ nl) document = true /\
     PyStr.contains ("Ошибка: " ++ f_reason info ++ nl) document = true).
Proof.
  cbv zeta. unfold info_document. split; intros info Hin; repeat split;
    apply contains_concat.
  all: first
         [ eapply in_info_writes_processed; [exact Hin|]; simpl; auto 10
         | eapply in_info_writes_failed; [exact Hin|]; simpl; auto 10 ].
Qed.

End ReportRecords.

(** ** The further properties on the example environments *)
Section FurtherScenarios.

Lemma transcribe_file_success_witness :
  exists elapsed w',
    transcribe_file two_videos_env (Some EmptyString) "in/a.mp4" "out" "small"
                    initial_world = (Ok ("hello world", elapsed), w') /\
    clock_reads w' = 2%nat /\
    fs w' = [("out/a_temp_audio.wav", Media "in/a.mp4")].
Proof.
  assert (E : exists elapsed w',
             transcribe_file two_videos_env (Some EmptyString) "in/a.mp4" "out" "small"
                             initial_world = (Ok ("hello world", elapsed), w'))
    by (do 2 eexists; vm_compute; reflexivity).
  destruct E as (elapsed & w' & E). exists elapsed, w'. split; [exact E|].
  destruct (transcribe_file_success _ _ _ _ _ _ _ _ _ E) as (Hc & _ & _ & _ & Hf & _).
  split; [exact Hc|exact Hf].
Defined.

Lemma extraction_failure_is_recorded_witness :
  exists w',
    process_file full_disk_env (Some EmptyString) "out" "small" ([], []) "in/a.mp4"
                 initial_world =
      (Ok ([], [mk_failed "a.mp4" "in/a.mp4" "No space left on device"]), w') /\
    engine_log w' = [] /\ cuda_probes w' = 0%nat.
Proof.
  exact (proj2 (extraction_failure_is_recorded full_disk_env (Some EmptyString) "out"
                  "small" [] [] "in/a.mp4" (inject_Z 60) disk_full initial_world
                  eq_refl eq_refl eq_refl)).
Defined.


Lemma engine_failure_is_recorded_witness :
  exists w',
    process_file bad_audio_env (Some EmptyString) "out" "small" ([], []) "in/talk.wav"
                 initial_world =
      (Ok ([], [mk_failed "talk.wav" "in/talk.wav"
                          "Invalid data found when processing input"]), w') /\
    engine_log w' =
      [mk_engine_call "in/talk.wav" "small" "cpu" "ru" (Some EmptyString)] /\
    cuda_probes w' = 1%nat.
Proof.
  exact (engine_failure_is_recorded bad_audio_env (Some EmptyString) "out" "small" [] []
           "in/talk.wav" (inject_Z 60) false bad_audio initial_world
           eq_refl eq_refl eq_refl eq_refl eq_refl).
Defined.

Lemma success_is_persisted_witness :
  exists p w' call segments language,
    process_file one_talk_env (Some EmptyString) "out" "small" ([], []) "in/talk.wav"
                 initial_world = (Ok ([p], []), w') /\
    model_transcribe one_talk_env call = Ok (segments, language) /\
    fs_get (fs w') "out/talk.txt" = Some (Text (join_segments segments)) /\
    p_media_duration_sec p = duration_to_seconds (p_duration p).
Proof.
  assert (E : exists p w',
             process_file one_talk_env (Some EmptyString) "out" "small" ([], [])
                          "in/talk.wav" initial_world = (Ok ([p], []), w'))
    by (do 2 eexists; vm_compute; reflexivity).
  destruct E as (p & w' & E).
  destruct (success_is_persisted one_talk_env _ _ _ [] [] _ _ _ p _ E)
    as (_ & (call & segments & language & Hc & Hf) & Hm & _).
  exists p, w', call, segments, language.
  split; [exact E|]. split; [exact Hc|]. split; [exact Hf|exact Hm].
Defined.



Lemma run_configuration_witness :
  exists run w',
    main mixed_folder_env "in" (Some "medium") initial_world = (Ok (Some run), w') /\
    run_files run = ["in/a.mp4"; "in/c.WAV"] /\
    run_model run = "medium" /\
    run_output_folder run = "/work/2025-01-01_00-00-00_medium".
Proof.
  assert (E : exists run w',
             main mixed_folder_env "in" (Some "medium") initial_world =
               (Ok (Some run), w'))
    by (do 2 eexists; vm_compute; reflexivity).
  destruct E as (run & w' & E).
  destruct (run_configuration _ _ _ _ _ _ E) as (Hf & _ & Ho & Hm & _).
  exists run, w'. split; [exact E|]. split; [exact Hf|].
  assert (M : run_model run = "medium") by (apply (Hm "medium"); [reflexivity|discriminate]).
  split; [exact M|]. rewrite Ho, M. reflexivity.
Defined.



Lemma unreadable_hotwords_stop_the_run_witness :
  read_hotwords locked_hotwords_env "hotwords.txt" initial_world =
    (Raise permission_denied, initial_world) /\
  engine_log (snd (main locked_hotwords_env "in" None initial_world)) = [] /\
  fs (snd (main locked_hotwords_env "in" None initial_world)) = [].
Proof.
  destruct (unreadable_hotwords_stop_the_run locked_hotwords_env permission_denied
              eq_refl eq_refl) as (R & M).
  split; [apply R|].
  destruct (M "in" None initial_world
              (fst (main locked_hotwords_env "in" None initial_world))
              (snd (main locked_hotwords_env "in" None initial_world))
              (surjective_pairing _)) as (_ & He & Hf).
  split; [exact He|exact Hf].
Defined.

Lemma without_torch_everything_runs_on_cpu_witness :
  exists calls,
    engine_log (snd (main no_torch_env "in" None initial_world)) = calls /\
    Forall (fun c => ec_device c = "cpu") calls.
Proof.
  destruct (without_torch_everything_runs_on_cpu no_torch_env "in" None initial_world
              (fst (main no_torch_env "in" None initial_world))
              (snd (main no_torch_env "in" None initial_world)))
    as ((calls & E & F) & _).
  - intros k. exists no_torch. split; reflexivity.
  - apply surjective_pairing.
  - exists calls. split; [exact E|exact F].
Defined.

Lemma every_record_is_reported_witness :
  PyStr.contains ("Путь: in/talk.wav" ++ nl)
    (info_document None [example_processed] [] "small" (50 # 1) example_system_info [])
  = true.
Proof.
  apply (proj1 (every_record_is_reported None [example_processed] [] "small" (50 # 1)
                  example_system_info []) example_processed).
  left. reflexivity.
Defined.

End FurtherScenarios.
